(** * transform_geonames.py: GeoNames tables to RDF triples

    A shallow embedding of [src/transform_geonames.py].  The script reads
    tab-separated GeoNames dumps with pandas, and for every decoded row adds
    one [rdf:type] triple and one triple per non-NaN mapped column to an
    rdflib [Graph].

    What is modelled and how:
    - a Python scalar held by a frame or a row is a [cell]; the missing
      value is [CNaN];
    - a frame keeps one dtype per column, and [df.iterrows()] yields each row
      as a Series of ONE dtype: [iterrows] converts the cells as pandas does
      (integers become floats in a frame whose columns are all numeric and
      not all integer, NumPy integers in an all-integer frame);
    - an rdflib node is a [term], a triple a product of three terms;
      [Literal_from] is rdflib's [Literal(value)];
    - the rdflib [Graph] (default in-memory store) is a finite SET of
      triples, [gset triple]: [Graph.add] of a triple that is already
      stored leaves the store as it is;
    - functions that mutate the graph and may raise are computations in
      the monad [M] (graph state plus a Python exception);
    - [pd.read_csv] is outside the model: [process_file] receives the frame
      that [read_csv] returned. *)

From Stdlib Require Import Ascii String.
From stdpp Require Import gmap strings list fin_maps pretty.

Open Scope string_scope.

(** ** Cells, terms, triples *)

(** A Python scalar.  [read_csv] parses a field to a [str], an [int], a
    [float] or a [bool]; an empty field is the float NaN.  A float other than
    NaN is carried by its [repr] (a Python [float] and a [numpy.float64]
    format alike and give the same literal).  [CInt64] and [CBool_] are the
    NumPy scalars [numpy.int64] and [numpy.bool_] that a row of an
    all-integer or all-boolean frame holds. *)
Inductive cell : Type :=
| CNaN
| CStr (s : string)
| CInt (z : Z)
| CFloat (repr : string)
| CBool (b : bool)
| CInt64 (z : Z)
| CBool_ (b : bool).

(** [pd.notna] on a scalar. *)
Definition pd_notna (c : cell) : bool :=
  match c with
  | CNaN => false
  | _ => true
  end.

(** What an f-string replacement field [{c}] renders. *)
Definition py_format (c : cell) : string :=
  match c with
  | CNaN => "nan"
  | CStr s => s
  | CInt z => pretty z
  | CFloat r => r
  | CBool true => "True"
  | CBool false => "False"
  | CInt64 z => pretty z
  | CBool_ true => "True"
  | CBool_ false => "False"
  end.

(** *** Integers turned into floats

    [repr(float(z))] for an integer [z]: the float64 nearest to [z] (ties
    to even), printed as Python prints it: the shortest decimal that reads
    back as the same float, with an exponent from [1e+16] on. *)

(** The float64 nearest to the integer [a >= 0], as an integer. *)
Definition nearest_float (a : Z) : Z :=
  let bits := (if decide (a = 0) then 0 else Z.log2 a + 1)%Z in
  if decide (bits ≤ 53)%Z then a
  else
    let s := (2 ^ (bits - 53))%Z in
    let q := (a / s)%Z in
    let r := (a mod s)%Z in
    if decide (2 * r < s)%Z then (q * s)%Z
    else if decide (s < 2 * r)%Z then ((q + 1) * s)%Z
    else if Z.even q then (q * s)%Z else ((q + 1) * s)%Z.

(** The distance from the float [v > 0] to the next float above it. *)
Definition ulp_above (v : Z) : Z :=
  let bits := (Z.log2 v + 1)%Z in
  if decide (bits ≤ 53)%Z then 1%Z else (2 ^ (bits - 53))%Z.

Definition is_pow2 (v : Z) : bool := bool_decide (v = 2 ^ Z.log2 v)%Z.

Fixpoint strip_zeros_rev (l : list ascii) : list ascii :=
  match l with
  | "0"%char :: l' => strip_zeros_rev l'
  | _ => l
  end.

Definition strip_trailing_zeros (s : string) : string :=
  string_of_list_ascii
    (rev (strip_zeros_rev (rev (list_ascii_of_string s)))).

(** The decimal with the fewest significant digits, [n] or more, that
    rounds to the float [v]; [lo] and [hi] are twice the distances to the
    ends of the rounding interval of [v], which it includes when [incl]. *)
Fixpoint shortest_from (fuel : nat) (n : Z) (v lo hi : Z) (incl : bool) : Z :=
  match fuel with
  | O => v
  | S fuel' =>
      let d := Z.of_nat (String.length (pretty v)) in
      if decide (d ≤ n)%Z then v
      else
        let p := (10 ^ (d - n))%Z in
        let c1 := (v / p * p)%Z in
        let c2 := (c1 + p)%Z in
        let ok1 := if incl then bool_decide (2 * (v - c1) ≤ lo)%Z
                   else bool_decide (2 * (v - c1) < lo)%Z in
        let ok2 := if incl then bool_decide (2 * (c2 - v) ≤ hi)%Z
                   else bool_decide (2 * (c2 - v) < hi)%Z in
        if ok1 && ok2 then (if decide (v - c1 ≤ c2 - v)%Z then c1 else c2)
        else if ok1 then c1
        else if ok2 then c2
        else shortest_from fuel' (n + 1) v lo hi incl
  end.

Definition float_repr_nonneg (a : Z) : string :=
  let v := nearest_float a in
  if decide (v < 10 ^ 16)%Z then pretty v ++ ".0"
  else
    let u := ulp_above v in
    let hi := u in
    let lo := if is_pow2 v then (u / 2)%Z else u in
    let incl := Z.even (v / u) in
    let c := shortest_from 20 1 v lo hi incl in
    let ds := strip_trailing_zeros (pretty c) in
    let e := (Z.of_nat (String.length (pretty c)) - 1)%Z in
    match ds with
    | EmptyString => "0.0"
    | String d1 EmptyString => String d1 ("e+" ++ pretty e)
    | String d1 rest => String d1 ("." ++ rest ++ "e+" ++ pretty e)
    end.

Definition float_repr_of_int (z : Z) : string :=
  if decide (z < 0)%Z then "-" ++ float_repr_nonneg (- z)
  else float_repr_nonneg z.

(** *** rdflib nodes *)

(** A [URIRef], or a literal.  A literal is written with the value that
    fixes its lexical form and datatype: [Literal (CStr s)] is the plain
    literal [s], [Literal (CInt z)] has datatype [xsd:integer],
    [Literal (CFloat r)] [xsd:double], [Literal (CBool b)] [xsd:boolean]. *)
Inductive term : Type :=
| URIRef (iri : string)
| Literal (value : cell).

(** rdflib's [Literal(value)] picks the datatype by [isinstance]: [bool],
    [int], [float] (which [numpy.float64] is), [str].  A [numpy.int64] or a
    [numpy.bool_] is none of these: it becomes the plain literal of its
    [str], the same node as [Literal] of that text. *)
Definition literal_value (v : cell) : cell :=
  match v with
  | CInt64 z => CStr (pretty z)
  | CBool_ true => CStr "True"
  | CBool_ false => CStr "False"
  | _ => v
  end.

Definition Literal_from (v : cell) : term := Literal (literal_value v).

(** [URIRef] is a subclass of [str]: formatting it gives the IRI. *)
Definition term_format (t : term) : string :=
  match t with
  | URIRef s => s
  | Literal v => py_format v
  end.

Definition triple : Type := term * term * term.

Definition subject_of (t : triple) : term := t.1.1.
Definition predicate_of (t : triple) : term := t.1.2.
Definition object_of (t : triple) : term := t.2.

#[global] Instance cell_eq_dec : EqDecision cell.
Proof. solve_decision. Defined.

#[global] Instance term_eq_dec : EqDecision term.
Proof. solve_decision. Defined.

Definition cell_to_sum (c : cell)
    : unit + string + Z + string + bool + Z + bool :=
  match c with
  | CNaN => inl (inl (inl (inl (inl (inl tt)))))
  | CStr s => inl (inl (inl (inl (inl (inr s)))))
  | CInt z => inl (inl (inl (inl (inr z))))
  | CFloat r => inl (inl (inl (inr r)))
  | CBool b => inl (inl (inr b))
  | CInt64 z => inl (inr z)
  | CBool_ b => inr b
  end.

Definition cell_of_sum (x : unit + string + Z + string + bool + Z + bool)
    : cell :=
  match x with
  | inl (inl (inl (inl (inl (inl _))))) => CNaN
  | inl (inl (inl (inl (inl (inr s))))) => CStr s
  | inl (inl (inl (inl (inr z)))) => CInt z
  | inl (inl (inl (inr r))) => CFloat r
  | inl (inl (inr b)) => CBool b
  | inl (inr z) => CInt64 z
  | inr b => CBool_ b
  end.

#[global] Instance cell_countable : Countable cell.
Proof.
  refine (inj_countable' cell_to_sum cell_of_sum _).
  intros c. destruct c; reflexivity.
Defined.

Definition term_to_sum (t : term) : string + cell :=
  match t with
  | URIRef s => inl s
  | Literal v => inr v
  end.

Definition term_of_sum (x : string + cell) : term :=
  match x with
  | inl s => URIRef s
  | inr v => Literal v
  end.

#[global] Instance term_countable : Countable term.
Proof.
  refine (inj_countable' term_to_sum term_of_sum _).
  intros t. destruct t; reflexivity.
Defined.

(** ** Vocabulary *)

(** [rdflib.RDF.type]. *)
Definition RDF_type : term :=
  URIRef "http://www.w3.org/1999/02/22-rdf-syntax-ns#type".

(** An rdflib [Namespace] is a string; attribute access [ns.name] builds
    [URIRef(ns + name)].  None of the attribute names used by the script is
    a method of [str], so every access goes through [Namespace.__getattr__]. *)
Definition Namespace : Type := string.

Definition ns_attr (ns : Namespace) (name : string) : term :=
  URIRef (ns ++ name).

Notation "ns '.@' name" := (ns_attr ns name)
  (at level 9, name at level 0, format "ns .@ name").

(** ** The graph and the monad of graph-mutating code *)

Abbreviation Graph := (gset triple).

Inductive exn : Type :=
| KeyError (key : string)
| ValueError (msg : string).

Inductive outcome (A : Type) : Type :=
| Returned (a : A)
| Raised (e : exn).
Arguments Returned {A} a.
Arguments Raised {A} e.

(** A computation takes the graph as it stands, and gives the graph as it
    leaves it together with a return value or the exception raised.  The
    graph is mutated in place: what was added before an exception stays. *)
Definition M (A : Type) : Type := Graph → Graph * outcome A.

Definition ret {A} (a : A) : M A := λ g, (g, Returned a).

Definition raise {A} (e : exn) : M A := λ g, (g, Raised e).

Definition bind {A B} (c : M A) (k : A → M B) : M B :=
  λ g, match c g with
       | (g', Returned a) => k a g'
       | (g', Raised e) => (g', Raised e)
       end.

Declare Scope M_scope.
Delimit Scope M_scope with M.
Notation "'let*' x := c 'in' k" := (bind c (λ x, k))
  (at level 10, x pattern, c at level 100, k at level 200) : M_scope.
Notation "c ;; k" := (bind c (λ _, k))
  (at level 100, k at level 200, right associativity) : M_scope.
Open Scope M_scope.

(** [for x in xs: body(x)] *)
Fixpoint for_each {A} (xs : list A) (body : A → M unit) : M unit :=
  match xs with
  | [] => ret tt
  | x :: xs' => body x ;; for_each xs' body
  end.

(** [g.add(t)] *)
Definition graph_add (t : triple) : M unit :=
  λ g, ({[ t ]} ∪ g, Returned tt).

(** [create_graph]: a fresh graph and the namespace.  [g.bind] records a
    prefix for serialisation only and does not touch the triples. *)
Definition create_graph : Graph * Namespace :=
  (∅, "http://example.org/geonames/").

(** ** Frames *)

(** The frame [read_csv(..., header=None)] returns: [ncols] columns
    labelled [0 .. ncols-1], rows indexed [0 .. n-1], given by the parsed
    fields of each row.  In a frame that [read_csv] returns every row has
    [ncols] cells; the theorems that need it assume so. *)
Record RawFrame : Type := mkRaw {
  ncols : nat;
  raw_rows : list (list cell)
}.

(** The dtype pandas keeps a column under. *)
Inductive dtype : Type := DInt64 | DFloat64 | DBool | DObject.

#[global] Instance dtype_eq_dec : EqDecision dtype.
Proof. solve_decision. Defined.

Definition is_int (c : cell) : bool :=
  match c with CInt _ => true | _ => false end.

Definition is_numeric (c : cell) : bool :=
  match c with CInt _ | CFloat _ | CNaN => true | _ => false end.

Definition is_bool (c : cell) : bool :=
  match c with CBool _ => true | _ => false end.

(** The dtype pandas infers for a column from its parsed fields: int64
    when all are integers; float64 when all are numbers or missing; bool
    when all are booleans; object otherwise (strings, or a mix). *)
Definition column_dtype (col : list cell) : dtype :=
  if forallb is_int col then DInt64
  else if forallb is_numeric col then DFloat64
  else if forallb is_bool col then DBool
  else DObject.

(** One dtype for each of the [n] columns of a frame given by rows. *)
Definition infer_dtypes (n : nat) (rows : list (list cell)) : list dtype :=
  map (λ j, column_dtype (omap (λ row : list cell, row !! j) rows)) (seq 0 n).

(** The dtype of the array [df.values], which holds every column: int64
    and float64 columns give float64, anything else next to a different
    dtype gives object. *)
Definition common_dtype (dts : list dtype) : dtype :=
  if forallb (λ d, bool_decide (d = DInt64)) dts then DInt64
  else if forallb (λ d, bool_decide (d = DInt64 ∨ d = DFloat64)) dts
       then DFloat64
  else if forallb (λ d, bool_decide (d = DBool)) dts then DBool
  else DObject.

(** The scalar a row holds for a cell of a column of dtype [dt], when the
    row's dtype is [common].  The column stores an integer field as a float
    if it is a float64 column; a float64 row turns every integer into a
    float; int64 and bool rows hold NumPy scalars; an object row holds the
    Python scalars. *)
Definition row_value (common dt : dtype) (c : cell) : cell :=
  match common, c with
  | DInt64, CInt z => CInt64 z
  | DFloat64, CInt z => CFloat (float_repr_of_int z)
  | DBool, CBool b => CBool_ b
  | DObject, CInt z =>
      if decide (dt = DFloat64) then CFloat (float_repr_of_int z) else c
  | _, _ => c
  end.

Definition row_values (dts : list dtype) (cells : list cell) : list cell :=
  zip_with (row_value (common_dtype dts)) dts cells.

(** A frame with string column labels, the rows and the column dtypes. *)
Record DataFrame : Type := {
  columns : list string;
  data : list (list cell);
  dtypes : list dtype
}.

(** The frame with these labels and rows, the dtypes being those pandas
    infers from the rows. *)
Definition mkDF (names : list string) (rows : list (list cell)) : DataFrame :=
  Build_DataFrame names rows (infer_dtypes (length names) rows).

(** A row as [iterrows] yields it: a Series indexed by the column labels. *)
Definition Series : Type := list (string * cell).

(** [df.columns = names]: pandas raises [ValueError] (length mismatch)
    unless there are as many names as columns. *)
Definition set_columns (raw : RawFrame) (names : list string) : M DataFrame :=
  if Nat.eqb (ncols raw) (length names)
  then ret (Build_DataFrame names (raw_rows raw)
              (infer_dtypes (ncols raw) (raw_rows raw)))
  else raise (ValueError "Length mismatch").

(** The frame without its first row; the columns keep their dtypes. *)
Definition without_first_row (df : DataFrame) : DataFrame :=
  Build_DataFrame (columns df) (tail (data df)) (dtypes df).

(** [df.drop(0)]: the frame without the row labelled 0, which after
    [read_csv] is the first row; [KeyError] when there is no such row. *)
Definition drop_0 (df : DataFrame) : M DataFrame :=
  match data df with
  | [] => raise (KeyError "[0] not found in axis")
  | _ :: _ => ret (without_first_row df)
  end.

(** The Series [iterrows] yields for a row of the frame. *)
Definition series_of (df : DataFrame) (cells : list cell) : Series :=
  zip (columns df) (row_values (dtypes df) cells).

(** [df.iterrows()], without the index labels, which the script ignores. *)
Definition iterrows (df : DataFrame) : list Series :=
  map (series_of df) (data df).

(** [row[label]] for a label that occurs at most once in the index, which
    is the case for every column list of the script; [None] stands for
    [KeyError].  (With a repeated label pandas gives a Series instead of a
    scalar; statements about frames with arbitrary labels assume the labels
    pairwise distinct.) *)
Fixpoint series_lookup (row : Series) (label : string) : option cell :=
  match row with
  | [] => None
  | (l, c) :: row' => if decide (l = label) then Some c else series_lookup row' label
  end.

(** [row[label]] *)
Definition getitem (row : Series) (label : string) : M cell :=
  match series_lookup row label with
  | Some c => ret c
  | None => raise (KeyError label)
  end.

(** [s.replace(" ", "_")] *)
Fixpoint replace_space (s : string) : string :=
  match s with
  | EmptyString => EmptyString
  | String a s' =>
      String (if decide (a = " "%char) then "_"%char else a) (replace_space s')
  end.

(** ** The triple emitter *)

(** [add_triples]; [properties] is the dict literal in insertion order. *)
Definition add_triples (df : DataFrame) (subject_class subject_prefix : term)
    (properties : list (term * string)) (id_column : string) : M unit :=
  for_each (iterrows df) (λ row,
    let* id := getitem row id_column in
    let subject := URIRef (term_format subject_prefix ++ py_format id) in
    graph_add (subject, RDF_type, subject_class) ;;
    for_each properties (λ '(prop, col),
      let* v := getitem row col in
      if pd_notna v
      then graph_add (subject, prop, Literal_from v)
      else ret tt)).

(** ** One mapping per file type *)

Definition process_admin1_codes (EX : Namespace) (df : DataFrame) : M unit :=
  add_triples df EX.@"Admin1Code" EX.@"admin1Code" [
    (EX.@"code", "code");
    (EX.@"name", "name");
    (EX.@"name_ascii", "name_ascii");
    (EX.@"geonameid", "geonameid")
  ] "code".

Definition process_admin2_codes (EX : Namespace) (df : DataFrame) : M unit :=
  add_triples df EX.@"Admin2Code" EX.@"admin2Code" [
    (EX.@"code", "code");
    (EX.@"name", "name");
    (EX.@"asciiname", "asciiname");
    (EX.@"geonameid", "geonameid")
  ] "code".

Definition process_admin5_codes (EX : Namespace) (df : DataFrame) : M unit :=
  add_triples df EX.@"Admin5Code" EX.@"admin5Code" [
    (EX.@"geonameid", "geonameid");
    (EX.@"adm5code", "adm5code")
  ] "geonameid".

Definition process_alternate_names (EX : Namespace) (df : DataFrame) : M unit :=
  add_triples df EX.@"AlternateName" EX.@"alternateName" [
    (EX.@"alternateNameId", "alternateNameId");
    (EX.@"geonameid", "geonameid");
    (EX.@"isolanguage", "isolanguage");
    (EX.@"alternate_name", "alternate_name")
  ] "alternateNameId".

Definition process_cities (EX : Namespace) (df : DataFrame) : M unit :=
  add_triples df EX.@"City" EX.@"city" [
    (EX.@"geonameid", "geonameid");
    (EX.@"name", "name");
    (EX.@"asciiname", "asciiname");
    (EX.@"alternatenames", "alternatenames");
    (EX.@"latitude", "latitude");
    (EX.@"longitude", "longitude");
    (EX.@"feature_class", "feature_class");
    (EX.@"feature_code", "feature_code");
    (EX.@"country_code", "country_code");
    (EX.@"cc2", "cc2");
    (EX.@"admin1_code", "admin1_code");
    (EX.@"admin2_code", "admin2_code");
    (EX.@"admin3_code", "admin3_code");
    (EX.@"admin4_code", "admin4_code");
    (EX.@"population", "population");
    (EX.@"elevation", "elevation");
    (EX.@"dem", "dem");
    (EX.@"timezone", "timezone");
    (EX.@"modification_date", "modification_date")
  ] "geonameid".

Definition process_country_info (EX : Namespace) (df : DataFrame) : M unit :=
  add_triples df EX.@"CountryInfo" EX.@"countryInfo" [
    (EX.@"iso", "ISO");
    (EX.@"iso3", "ISO3");
    (EX.@"iso_numeric", "ISO-Numeric");
    (EX.@"fips", "fips");
    (EX.@"country", "Country");
    (EX.@"capital", "Capital");
    (EX.@"area_in_sq_km", "Area(in sq km)");
    (EX.@"population", "Population");
    (EX.@"continent", "Continent");
    (EX.@"tld", "tld");
    (EX.@"currency_code", "CurrencyCode");
    (EX.@"currency_name", "CurrencyName");
    (EX.@"phone", "Phone");
    (EX.@"postal_code_format", "Postal Code Format")
  ] "ISO".

Definition process_feature_codes (EX : Namespace) (df : DataFrame) : M unit :=
  add_triples df EX.@"FeatureCode" EX.@"featureCode" [
    (EX.@"code", "code");
    (EX.@"name", "name");
    (EX.@"description", "description")
  ] "code".

Definition process_hierarchy (EX : Namespace) (df : DataFrame) : M unit :=
  add_triples df EX.@"Hierarchy" EX.@"hierarchy" [
    (EX.@"parentId", "parentId");
    (EX.@"childId", "childId");
    (EX.@"type", "type")
  ] "parentId".

Definition process_iso_language_codes (EX : Namespace) (df : DataFrame) : M unit :=
  let df :=
    Build_DataFrame (map replace_space (columns df)) (data df) (dtypes df) in
  add_triples df EX.@"ISOLanguageCode" EX.@"isoLanguageCode" [
    (EX.@"iso_639_3", "ISO_639_3");
    (EX.@"iso_639_2", "ISO_639_2");
    (EX.@"iso_639_1", "ISO_639_1");
    (EX.@"language_name", "Language_Name")
  ] "ISO_639_3".

Definition process_time_zones (EX : Namespace) (df : DataFrame) : M unit :=
  add_triples df EX.@"TimeZone" EX.@"timeZone" [
    (EX.@"country_code", "CountryCode");
    (EX.@"timezone_id", "TimeZoneId");
    (EX.@"gmt_offset", "GMT_offset_1_Jan_2025");
    (EX.@"dst_offset", "DST_offset_1_Jul_2025");
    (EX.@"raw_offset", "rawOffset_independant_of_DST")
  ] "CountryCode".

(** ** The file dispatcher *)

Definition city_columns : list string :=
  ["geonameid"; "name"; "asciiname"; "alternatenames"; "latitude";
   "longitude"; "feature_class"; "feature_code"; "country_code"; "cc2";
   "admin1_code"; "admin2_code"; "admin3_code"; "admin4_code"; "population";
   "elevation"; "dem"; "timezone"; "modification_date"].

(** The dict literal [file_columns], in source order.  The four city
    entries repeat the same list in the source. *)
Definition file_columns_items : list (string * list string) :=
  [ ("admin1CodesASCII.txt", ["code"; "name"; "name_ascii"; "geonameid"]);
    ("admin2Codes.txt", ["code"; "name"; "asciiname"; "geonameid"]);
    ("adminCode5.txt", ["geonameid"; "adm5code"]);
    ("alternateNamesV2.txt",
       ["alternateNameId"; "geonameid"; "isolanguage"; "alternate_name";
        "isPreferredName"; "isShortName"; "isColloquial"; "isHistoric";
        "from"; "to"]);
    ("cities500.txt", city_columns);
    ("cities1000.txt", city_columns);
    ("cities5000.txt", city_columns);
    ("cities15000.txt", city_columns);
    ("countryInfo.txt",
       ["ISO"; "ISO3"; "ISO-Numeric"; "fips"; "Country"; "Capital";
        "Area(in sq km)"; "Population"; "Continent"; "tld"; "CurrencyCode";
        "CurrencyName"; "Phone"; "Postal Code Format"]);
    ("featureCodes_en.txt", ["code"; "name"; "description"]);
    ("hierarchy.txt", ["parentId"; "childId"; "type"]);
    ("iso-languagecodes.txt",
       ["ISO_639_3"; "ISO_639_2"; "ISO_639_1"; "Language_Name"]);
    ("timeZones.txt",
       ["CountryCode"; "TimeZoneId"; "GMT_offset_1_Jan_2025";
        "DST_offset_1_Jul_2025"; "rawOffset_independant_of_DST"]) ].

Definition file_columns : gmap string (list string) :=
  list_to_map file_columns_items.

(** [process_file]; [read_csv] stands for the frame that
    [pd.read_csv(file_path, ...)] returned.  The [print] calls are left out.
    The [match] statement has no default case. *)
Definition process_file (EX : Namespace) (file_name : string)
    (read_csv : RawFrame) : M unit :=
  match file_columns !! file_name with
  | Some names =>
      let* df := set_columns read_csv names in
      match file_name with
      | "admin1CodesASCII.txt" => process_admin1_codes EX df
      | "admin2Codes.txt" => process_admin2_codes EX df
      | "adminCode5.txt" => process_admin5_codes EX df
      | "alternateNamesV2.txt" => process_alternate_names EX df
      | "cities500.txt" | "cities1000.txt" | "cities5000.txt"
      | "cities15000.txt" => process_cities EX df
      | "countryInfo.txt" => process_country_info EX df
      | "featureCodes_en.txt" => process_feature_codes EX df
      | "hierarchy.txt" => process_hierarchy EX df
      | "iso-languagecodes.txt" =>
          let* df := drop_0 df in
          process_iso_language_codes EX df
      | "timeZones.txt" => process_time_zones EX df
      | _ => ret tt
      end
  | None => ret tt
  end.

(** [main], with the directory listing and the decoding of each file given
    as a list of (file name, decoded frame); serialisation is left out. *)
Definition main (listing : list (string * RawFrame)) : Graph * outcome unit :=
  let '(g, EX) := create_graph in
  for_each listing (λ '(file_name, frame), process_file EX file_name frame) g.

(** ** The mapping rules as data

    The arguments each [process_*] function passes to [add_triples],
    collected in a table keyed by file name ([process_file_dispatch] below
    proves that this is what [process_file] runs). *)

Record MappingRule : Type := mkRule {
  subject_class : term;
  subject_prefix : term;
  properties : list (term * string);
  id_column : string
}.

Definition apply_rule (rule : MappingRule) (df : DataFrame) : M unit :=
  add_triples df (subject_class rule) (subject_prefix rule)
    (properties rule) (id_column rule).

Definition city_rule (EX : Namespace) : MappingRule :=
  mkRule EX.@"City" EX.@"city" [
    (EX.@"geonameid", "geonameid");
    (EX.@"name", "name");
    (EX.@"asciiname", "asciiname");
    (EX.@"alternatenames", "alternatenames");
    (EX.@"latitude", "latitude");
    (EX.@"longitude", "longitude");
    (EX.@"feature_class", "feature_class");
    (EX.@"feature_code", "feature_code");
    (EX.@"country_code", "country_code");
    (EX.@"cc2", "cc2");
    (EX.@"admin1_code", "admin1_code");
    (EX.@"admin2_code", "admin2_code");
    (EX.@"admin3_code", "admin3_code");
    (EX.@"admin4_code", "admin4_code");
    (EX.@"population", "population");
    (EX.@"elevation", "elevation");
    (EX.@"dem", "dem");
    (EX.@"timezone", "timezone");
    (EX.@"modification_date", "modification_date")
  ] "geonameid".

Definition country_info_rule (EX : Namespace) : MappingRule :=
  mkRule EX.@"CountryInfo" EX.@"countryInfo" [
    (EX.@"iso", "ISO");
    (EX.@"iso3", "ISO3");
    (EX.@"iso_numeric", "ISO-Numeric");
    (EX.@"fips", "fips");
    (EX.@"country", "Country");
    (EX.@"capital", "Capital");
    (EX.@"area_in_sq_km", "Area(in sq km)");
    (EX.@"population", "Population");
    (EX.@"continent", "Continent");
    (EX.@"tld", "tld");
    (EX.@"currency_code", "CurrencyCode");
    (EX.@"currency_name", "CurrencyName");
    (EX.@"phone", "Phone");
    (EX.@"postal_code_format", "Postal Code Format")
  ] "ISO".

Definition hierarchy_rule (EX : Namespace) : MappingRule :=
  mkRule EX.@"Hierarchy" EX.@"hierarchy" [
    (EX.@"parentId", "parentId");
    (EX.@"childId", "childId");
    (EX.@"type", "type")
  ] "parentId".

Definition iso_language_rule (EX : Namespace) : MappingRule :=
  mkRule EX.@"ISOLanguageCode" EX.@"isoLanguageCode" [
    (EX.@"iso_639_3", "ISO_639_3");
    (EX.@"iso_639_2", "ISO_639_2");
    (EX.@"iso_639_1", "ISO_639_1");
    (EX.@"language_name", "Language_Name")
  ] "ISO_639_3".

Definition mapping_rule (EX : Namespace) (file_name : string)
    : option MappingRule :=
  match file_name with
  | "admin1CodesASCII.txt" =>
      Some (mkRule EX.@"Admin1Code" EX.@"admin1Code" [
        (EX.@"code", "code");
        (EX.@"name", "name");
        (EX.@"name_ascii", "name_ascii");
        (EX.@"geonameid", "geonameid")
      ] "code")
  | "admin2Codes.txt" =>
      Some (mkRule EX.@"Admin2Code" EX.@"admin2Code" [
        (EX.@"code", "code");
        (EX.@"name", "name");
        (EX.@"asciiname", "asciiname");
        (EX.@"geonameid", "geonameid")
      ] "code")
  | "adminCode5.txt" =>
      Some (mkRule EX.@"Admin5Code" EX.@"admin5Code" [
        (EX.@"geonameid", "geonameid");
        (EX.@"adm5code", "adm5code")
      ] "geonameid")
  | "alternateNamesV2.txt" =>
      Some (mkRule EX.@"AlternateName" EX.@"alternateName" [
        (EX.@"alternateNameId", "alternateNameId");
        (EX.@"geonameid", "geonameid");
        (EX.@"isolanguage", "isolanguage");
        (EX.@"alternate_name", "alternate_name")
      ] "alternateNameId")
  | "cities500.txt" | "cities1000.txt" | "cities5000.txt"
  | "cities15000.txt" => Some (city_rule EX)
  | "countryInfo.txt" => Some (country_info_rule EX)
  | "featureCodes_en.txt" =>
      Some (mkRule EX.@"FeatureCode" EX.@"featureCode" [
        (EX.@"code", "code");
        (EX.@"name", "name");
        (EX.@"description", "description")
      ] "code")
  | "hierarchy.txt" => Some (hierarchy_rule EX)
  | "iso-languagecodes.txt" => Some (iso_language_rule EX)
  | "timeZones.txt" =>
      Some (mkRule EX.@"TimeZone" EX.@"timeZone" [
        (EX.@"country_code", "CountryCode");
        (EX.@"timezone_id", "TimeZoneId");
        (EX.@"gmt_offset", "GMT_offset_1_Jan_2025");
        (EX.@"dst_offset", "DST_offset_1_Jul_2025");
        (EX.@"raw_offset", "rawOffset_independant_of_DST")
      ] "CountryCode")
  | _ => None
  end.

(** The frame that reaches the triple emitter: the decoded frame, except
    for [iso-languagecodes.txt], where [df.drop(0)] comes first. *)
Definition emitted_frame (file_name : string) (names : list string)
    (rows : list (list cell)) : DataFrame :=
  if decide (file_name = "iso-languagecodes.txt")
  then without_first_row (mkDF names rows)
  else mkDF names rows.

(** ** The triples a run emits, as a list

    The same loops as [add_triples], written as a function that returns the
    triples handed to [g.add], in order, and how the loop ended. *)

Fixpoint property_triples (subject : term) (row : Series)
    (props : list (term * string)) : list triple * outcome unit :=
  match props with
  | [] => ([], Returned tt)
  | (prop, col) :: props' =>
      match series_lookup row col with
      | None => ([], Raised (KeyError col))
      | Some v =>
          let '(ts, o) := property_triples subject row props' in
          (((if pd_notna v then [(subject, prop, Literal_from v)] else [])
            ++ ts)%list, o)
      end
  end.

Definition row_subject (rule : MappingRule) (id : cell) : term :=
  URIRef (term_format (subject_prefix rule) ++ py_format id).

Definition row_triples (rule : MappingRule) (row : Series)
    : list triple * outcome unit :=
  match series_lookup row (id_column rule) with
  | None => ([], Raised (KeyError (id_column rule)))
  | Some id =>
      let subject := row_subject rule id in
      let '(ts, o) := property_triples subject row (properties rule) in
      ((subject, RDF_type, subject_class rule) :: ts, o)
  end.

Fixpoint rows_triples (rule : MappingRule) (rows : list Series)
    : list triple * outcome unit :=
  match rows with
  | [] => ([], Returned tt)
  | row :: rows' =>
      match row_triples rule row with
      | (ts, Returned _) =>
          let '(ts', o) := rows_triples rule rows' in ((ts ++ ts')%list, o)
      | (ts, Raised e) => (ts, Raised e)
      end
  end.

(** The triples of the rows a frame yields, when all end normally: those
    of the first row, then those of the second, and so on. *)
Definition series_triples (rule : MappingRule) (rows : list Series)
    : list triple :=
  concat (map (λ row, (row_triples rule row).1) rows).

Definition frame_triples (rule : MappingRule) (names : list string)
    (rows : list (list cell)) : list triple :=
  series_triples rule (iterrows (mkDF names rows)).

(** [emits c ts o]: from any graph, [c] adds exactly the triples [ts] and
    ends with [o]. *)
Definition emits {A} (c : M A) (ts : list triple) (o : outcome A) : Prop :=
  ∀ g : Graph, c g = (list_to_set ts ∪ g, o).

(** The entries commented out in the dict of [process_country_info]. *)
Definition country_info_unmapped (EX : Namespace) : list term :=
  [ EX.@"postal_code_regex"; EX.@"languages"; EX.@"geonameid";
    EX.@"neighbours"; EX.@"equivalent_fips_code" ].

Definition iso_columns : list string :=
  ["ISO_639_3"; "ISO_639_2"; "ISO_639_1"; "Language_Name"].

(** ** Sample frames *)

(** [hierarchy.txt] with the rows (100, 200, ADM) and (100, 300, ADM). *)
Definition hierarchy_two_rows : RawFrame :=
  mkRaw 3 [ [CInt 100; CInt 200; CStr "ADM"];
            [CInt 100; CInt 300; CStr "ADM"] ].


(** [hierarchy.txt] with one row whose [type] field is a single space. *)
Definition hierarchy_blank_type : RawFrame :=
  mkRaw 3 [ [CInt 100; CInt 200; CStr " "] ].

(** [hierarchy.txt] with one row whose [type] field is empty: every column
    is numeric, the third one float64. *)
Definition hierarchy_numeric : RawFrame :=
  mkRaw 3 [ [CInt 100; CInt 200; CNaN] ].

(** [adminCode5.txt] with one row of two integers: every column is
    int64. *)
Definition admin5_integers : RawFrame :=
  mkRaw 2 [ [CInt 123; CInt 456] ].

(** [countryInfo.txt] with one row: ISO, Country, Capital, Population and
    Postal Code Format filled in, the nine other columns empty. *)
Definition country_row_FR : RawFrame :=
  mkRaw 14 [ [CStr "FR"; CNaN; CNaN; CNaN; CStr "France"; CStr "Paris";
              CNaN; CInt 67000000; CNaN; CNaN; CNaN; CNaN; CNaN;
              CStr "#####"] ].

(** A genuine first row of [iso-languagecodes.txt], and the row that
    restates the column names. *)
Definition iso_row_aaa : list cell :=
  [CStr "aaa"; CNaN; CNaN; CStr "Ghotuo"].

Definition iso_header_row : list cell :=
  map CStr ["ISO_639_3"; "ISO_639_2"; "ISO_639_1"; "Language_Name"].

(** ** Side conditions on rules *)

(** The namespace [main] passes around. *)
Definition ex_ns : Namespace := create_graph.2.

(** What the proofs need of a rule applied to a frame with columns [names]:
    every column it reads is declared, the property identifiers are
    pairwise distinct (they are dict keys), and none is [rdf:type]. *)
Definition rule_fits (names : list string) (rule : MappingRule) : Prop :=
  id_column rule ∈ names ∧
  Forall (λ pc, pc.2 ∈ names) (properties rule) ∧
  NoDup (properties rule).*1 ∧
  RDF_type ∉ (properties rule).*1.

#[global] Instance rule_fits_dec names rule : Decision (rule_fits names rule).
Proof. unfold rule_fits. apply _. Defined.

(** ** Rules of the recognised files *)

#[global] Instance mapping_rule_eq_dec : EqDecision MappingRule.
Proof. solve_decision. Defined.

(** The rules of the names listed in [file_columns], in that order. *)
Definition recognized_rules : list MappingRule :=
  omap (mapping_rule ex_ns) file_columns_items.*1.

(** [subject_prefix] as the text that starts a subject. *)
Definition prefix_text (rule : MappingRule) : string :=
  term_format (subject_prefix rule).

(** A frame is well shaped for a rule when the rule fits its labels and
    every row, like the list of dtypes, has one entry per label. *)
Definition well_shaped (rule : MappingRule) (df : DataFrame) : Prop :=
  rule_fits (columns df) rule ∧
  length (dtypes df) = length (columns df) ∧
  Forall (λ cells, length cells = length (columns df)) (data df).

(** * Properties *)

(** ** The monad laws the proofs use *)

Section Emits.
Context {A B : Type}.

Lemma emits_ret (a : A) : emits (ret a) [] (Returned a).
Proof. intros g. unfold ret. simpl. by rewrite (left_id_L ∅ (∪)). Qed.

Lemma emits_raise (e : exn) : emits (@raise A e) [] (Raised e).
Proof. intros g. unfold raise. simpl. by rewrite (left_id_L ∅ (∪)). Qed.

Lemma emits_bind_returned (c : M A) (k : A → M B) ts a ts' o :
  emits c ts (Returned a) →
  emits (k a) ts' o →
  emits (bind c k) (ts ++ ts')%list o.
Proof.
  intros Hc Hk g. unfold bind. rewrite Hc, Hk. f_equal.
  rewrite list_to_set_app_L, (assoc_L (∪)).
  by rewrite (comm_L (∪) (list_to_set ts')).
Qed.

Lemma emits_bind_raised (c : M A) (k : A → M B) ts e :
  emits c ts (Raised e) →
  emits (bind c k) ts (Raised e).
Proof. intros Hc g. unfold bind. by rewrite Hc. Qed.
End Emits.

Lemma emits_graph_add (t : triple) : emits (graph_add t) [t] (Returned tt).
Proof. intros g. unfold graph_add. simpl. by rewrite (right_id_L ∅ (∪)). Qed.

Lemma emits_getitem_Some (row : Series) (label : string) (c : cell) :
  series_lookup row label = Some c →
  emits (getitem row label) [] (Returned c).
Proof. intros H. unfold getitem. rewrite H. apply emits_ret. Qed.

Lemma emits_getitem_None (row : Series) (label : string) :
  series_lookup row label = None →
  emits (getitem row label) [] (Raised (KeyError label)).
Proof. intros H. unfold getitem. rewrite H. apply emits_raise. Qed.

(** ** [add_triples] emits what the list functions say *)

Lemma emits_property_loop (subject : term) (row : Series)
    (props : list (term * string)) :
  emits
    (for_each props (λ '(prop, col),
       let* v := getitem row col in
       if pd_notna v
       then graph_add (subject, prop, Literal_from v)
       else ret tt))
    (property_triples subject row props).1
    (property_triples subject row props).2.
Proof.
  induction props as [|[prop col] props IH]; simpl.
  - apply emits_ret.
  - destruct (series_lookup row col) as [v|] eqn:Hv; simpl.
    + destruct (property_triples subject row props) as [ts o]; simpl in *.
      eapply emits_bind_returned; [|exact IH].
      replace (if pd_notna v then [(subject, prop, Literal_from v)] else [])
        with ([] ++ (if pd_notna v
                     then [(subject, prop, Literal_from v)] else []))%list
        by reflexivity.
      eapply emits_bind_returned; [by apply emits_getitem_Some|].
      destruct (pd_notna v); [apply emits_graph_add | apply emits_ret].
    + apply emits_bind_raised, emits_bind_raised.
      by apply emits_getitem_None.
Qed.

Lemma emits_row (rule : MappingRule) (row : Series) :
  emits
    (let* id := getitem row (id_column rule) in
     let subject :=
       URIRef (term_format (subject_prefix rule) ++ py_format id) in
     graph_add (subject, RDF_type, subject_class rule) ;;
     for_each (properties rule) (λ '(prop, col),
       let* v := getitem row col in
       if pd_notna v
       then graph_add (subject, prop, Literal_from v)
       else ret tt))
    (row_triples rule row).1 (row_triples rule row).2.
Proof.
  unfold row_triples.
  destruct (series_lookup row (id_column rule)) as [id|] eqn:Hid; simpl.
  - pose proof (emits_property_loop (row_subject rule id) row (properties rule)) as Hp.
    destruct (property_triples (row_subject rule id) row (properties rule))
      as [ts o]; simpl in *.
    change (?t :: ts) with ([] ++ ([t] ++ ts))%list.
    eapply emits_bind_returned; [by apply emits_getitem_Some|].
    eapply emits_bind_returned; [apply emits_graph_add | exact Hp].
  - apply emits_bind_raised. by apply emits_getitem_None.
Qed.

Lemma emits_apply_rule (rule : MappingRule) (df : DataFrame) :
  emits (apply_rule rule df)
    (rows_triples rule (iterrows df)).1 (rows_triples rule (iterrows df)).2.
Proof.
  unfold apply_rule, add_triples.
  induction (iterrows df) as [|row rows IH]; simpl.
  - apply emits_ret.
  - pose proof (emits_row rule row) as Hrow.
    destruct (row_triples rule row) as [ts [[]|e]]; simpl in *.
    + destruct (rows_triples rule rows) as [ts' o]; simpl in *.
      eapply emits_bind_returned; [exact Hrow | exact IH].
    + apply emits_bind_raised. exact Hrow.
Qed.

(** ** What [process_file] runs for each recognised name *)

Lemma recognized_file (file_name : string) (names : list string) :
  file_columns !! file_name = Some names →
  (file_name, names) ∈ file_columns_items.
Proof. intros H. by apply elem_of_list_to_map_2. Qed.

Ltac each_file H :=
  apply recognized_file in H; unfold file_columns_items in H;
  repeat (apply elem_of_cons in H as [H|H]; [injection H as -> ->|]);
  [..|by apply elem_of_nil in H].

Lemma mapping_rule_recognized (EX : Namespace) (file_name : string)
    (names : list string) :
  file_columns !! file_name = Some names →
  is_Some (mapping_rule EX file_name).
Proof. intros H. each_file H; by eexists. Qed.

(** For every recognised name but one, [process_file] names the columns and
    runs the file's rule over all rows. *)
Lemma process_file_dispatch (EX : Namespace) (file_name : string)
    (names : list string) (raw : RawFrame) :
  file_columns !! file_name = Some names →
  file_name ≠ "iso-languagecodes.txt" →
  ∃ rule, mapping_rule EX file_name = Some rule ∧
    process_file EX file_name raw =
      (let* df := set_columns raw names in apply_rule rule df).
Proof.
  intros H Hne. unfold process_file. rewrite H.
  each_file H; try done; by eexists.
Qed.

(** For [iso-languagecodes.txt] the first row is dropped first; renaming
    the columns changes nothing, since no declared name has a space. *)
Lemma process_file_dispatch_iso (EX : Namespace) (raw : RawFrame) (g : Graph) :
  process_file EX "iso-languagecodes.txt" raw g =
    (let* df := set_columns raw
        ["ISO_639_3"; "ISO_639_2"; "ISO_639_1"; "Language_Name"] in
     let* df := drop_0 df in
     apply_rule (iso_language_rule EX) df) g.
Proof.
  unfold process_file.
  replace (file_columns !! "iso-languagecodes.txt")
    with (Some ["ISO_639_3"; "ISO_639_2"; "ISO_639_1"; "Language_Name"])
    by reflexivity.
  unfold bind, set_columns.
  destruct (ncols raw =? _)%nat; [|reflexivity].
  unfold ret, drop_0; simpl.
  destruct (raw_rows raw); reflexivity.
Qed.

(** ** Rows of a named frame *)

Lemma rule_fits_recognized (file_name : string) (names : list string)
    (rule : MappingRule) :
  file_columns !! file_name = Some names →
  mapping_rule ex_ns file_name = Some rule →
  rule_fits names rule.
Proof.
  intros H Hr.
  each_file H; injection Hr as <-; by apply (bool_decide_unpack _); vm_compute.
Qed.

Lemma series_lookup_zip (names : list string) (cells : list cell)
    (col : string) :
  col ∈ names →
  length cells = length names →
  is_Some (series_lookup (zip names cells) col).
Proof.
  revert cells. induction names as [|n names IH]; intros cells Hin Hlen.
  - by apply elem_of_nil in Hin.
  - destruct cells as [|c cells]; [done|]. simpl.
    destruct (decide (n = col)) as [->|Hne]; [by eexists|].
    apply IH; [|by injection Hlen].
    apply elem_of_cons in Hin as [->|Hin]; done.
Qed.

(** When every property column is there, the inner loop ends normally and
    emits one triple for each property whose cell is not NaN. *)
Lemma property_triples_present (subject : term) (row : Series)
    (props : list (term * string)) :
  Forall (λ pc, is_Some (series_lookup row pc.2)) props →
  (property_triples subject row props).2 = Returned tt ∧
  ∀ t, t ∈ (property_triples subject row props).1 ↔
       ∃ prop col v, (prop, col) ∈ props ∧ series_lookup row col = Some v ∧
                     pd_notna v = true ∧ t = (subject, prop, Literal_from v).
Proof.
  induction props as [|[prop col] props IH]; intros Hall; simpl.
  - split; [done|]. intros t. split.
    + intros Ht. by apply elem_of_nil in Ht.
    + intros (p & c & v & Hin & _). by apply elem_of_nil in Hin.
  - apply Forall_cons in Hall as [[v Hv] Hall]. simpl in Hv. rewrite Hv.
    destruct (IH Hall) as [IHo IHt].
    destruct (property_triples subject row props) as [ts o]; simpl in *.
    split; [done|]. intros t. rewrite elem_of_app, IHt. split.
    + intros [Ht|(p & c & w & Hin & Hw & Hna & ->)].
      * destruct (pd_notna v) eqn:Hna; [|by apply elem_of_nil in Ht].
        apply list_elem_of_singleton in Ht as ->.
        exists prop, col, v. split_and!; [left|..]; done.
      * exists p, c, w. split_and!; [by right|..]; done.
    + intros (p & c & w & Hin & Hw & Hna & ->).
      apply elem_of_cons in Hin as [Heq|Hin].
      * injection Heq as -> ->. left. rewrite Hv in Hw. injection Hw as ->.
        rewrite Hna. by apply list_elem_of_singleton.
      * right. exists p, c, w. done.
Qed.

(** In a list with distinct keys a key has one value. *)
Lemma distinct_keys_functional (props : list (term * string)) prop col col' :
  NoDup props.*1 →
  (prop, col) ∈ props → (prop, col') ∈ props → col = col'.
Proof.
  induction props as [|[p c] props IH]; intros Hnd H1 H2.
  - by apply elem_of_nil in H1.
  - simpl in Hnd. apply NoDup_cons in Hnd as [Hnotin Hnd].
    apply elem_of_cons in H1 as [H1|H1]; apply elem_of_cons in H2 as [H2|H2].
    + congruence.
    + injection H1 as -> ->. exfalso. apply Hnotin.
      apply list_elem_of_fmap. by exists (p, col').
    + injection H2 as -> ->. exfalso. apply Hnotin.
      apply list_elem_of_fmap. by exists (p, col).
    + by apply IH.
Qed.

(** A row of the right width under a fitting rule: the row ends normally,
    and its triples are the type assertion followed by the property
    triples. *)
Lemma row_triples_fits (names : list string) (rule : MappingRule)
    (cells : list cell) :
  rule_fits names rule →
  length cells = length names →
  ∃ id, series_lookup (zip names cells) (id_column rule) = Some id ∧
    (row_triples rule (zip names cells)).2 = Returned tt ∧
    (row_triples rule (zip names cells)).1 =
      (row_subject rule id, RDF_type, subject_class rule)
      :: (property_triples (row_subject rule id) (zip names cells)
            (properties rule)).1 ∧
    Forall (λ pc, is_Some (series_lookup (zip names cells) pc.2))
      (properties rule).
Proof.
  intros (Hid & Hcols & _ & _) Hlen.
  destruct (series_lookup_zip names cells (id_column rule) Hid Hlen)
    as [id Hlk].
  assert (Hall : Forall (λ pc, is_Some (series_lookup (zip names cells) pc.2))
                   (properties rule)).
  { eapply Forall_impl; [exact Hcols|]. intros pc Hpc.
    by apply series_lookup_zip. }
  exists id. unfold row_triples. rewrite Hlk.
  destruct (property_triples_present (row_subject rule id) (zip names cells)
              (properties rule) Hall) as [Ho _].
  destruct (property_triples _ _ _) as [ts o]; simpl in *. by subst o.
Qed.

(** Converting the cells of a row keeps their number. *)
Lemma length_row_values (dts : list dtype) (cells : list cell) :
  length dts = length cells → length (row_values dts cells) = length cells.
Proof.
  intros H. unfold row_values. rewrite length_zip_with. lia.
Qed.

Lemma length_infer_dtypes (n : nat) (rows : list (list cell)) :
  length (infer_dtypes n rows) = n.
Proof. unfold infer_dtypes. by rewrite length_map, length_seq. Qed.

(** A missing value stays missing, and nothing else becomes missing. *)
Lemma row_value_notna (common dt : dtype) (c : cell) :
  pd_notna (row_value common dt c) = pd_notna c.
Proof. destruct common, c; simpl; try done; by case_decide. Qed.


Lemma well_shaped_mkDF (rule : MappingRule) (names : list string)
    (rows : list (list cell)) :
  rule_fits names rule →
  Forall (λ cells, length cells = length names) rows →
  well_shaped rule (mkDF names rows).
Proof.
  intros Hfits Hrows. split_and!; [done| |done].
  simpl. apply length_infer_dtypes.
Qed.

Lemma well_shaped_without_first_row (rule : MappingRule) (df : DataFrame) :
  well_shaped rule df → well_shaped rule (without_first_row df).
Proof.
  intros (Hfits & Hdts & Hrows). split_and!; [done..|].
  simpl. destruct (data df); [done|]. by apply Forall_cons in Hrows as [_ ?].
Qed.

(** A row of a well shaped frame, as [iterrows] yields it, has a value
    under every label the rule reads; it ends normally, and its triples are
    the type assertion followed by the property triples. *)
Lemma series_of_fits (rule : MappingRule) (df : DataFrame)
    (cells : list cell) :
  well_shaped rule df →
  cells ∈ data df →
  ∃ id, series_lookup (series_of df cells) (id_column rule) = Some id ∧
    (row_triples rule (series_of df cells)).2 = Returned tt ∧
    (row_triples rule (series_of df cells)).1 =
      (row_subject rule id, RDF_type, subject_class rule)
      :: (property_triples (row_subject rule id) (series_of df cells)
            (properties rule)).1 ∧
    Forall (λ pc, is_Some (series_lookup (series_of df cells) pc.2))
      (properties rule).
Proof.
  intros (Hfits & Hdts & Hrows) Hin. unfold series_of.
  apply row_triples_fits; [done|].
  rewrite Forall_forall in Hrows. specialize (Hrows cells Hin).
  rewrite length_row_values; [done|]. by rewrite Hdts.
Qed.

(** Every row of a well shaped frame ends normally, so the loop over the
    rows emits the triples of each row in turn. *)
Lemma rows_triples_well_shaped (rule : MappingRule) (df : DataFrame) :
  well_shaped rule df →
  rows_triples rule (iterrows df) =
    (series_triples rule (iterrows df), Returned tt).
Proof.
  intros Hws. unfold iterrows, series_triples.
  assert (Hall : Forall (λ cells, cells ∈ data df) (data df))
    by (by apply Forall_forall).
  induction Hall as [|cells rows Hin _ IH]; [done|]. simpl.
  destruct (series_of_fits rule df cells Hws Hin) as (_ & _ & Hout & _ & _).
  destruct (row_triples rule (series_of df cells)) as [ts o]; simpl in *.
  subst o. by rewrite IH.
Qed.

Lemma emits_well_shaped (rule : MappingRule) (df : DataFrame) :
  well_shaped rule df →
  emits (apply_rule rule df) (series_triples rule (iterrows df)) (Returned tt).
Proof.
  intros Hws. pose proof (emits_apply_rule rule df) as H.
  by rewrite (rows_triples_well_shaped rule df Hws) in H.
Qed.

Lemma rows_triples_frame (rule : MappingRule) (names : list string)
    (rows : list (list cell)) :
  rule_fits names rule →
  Forall (λ cells, length cells = length names) rows →
  rows_triples rule (iterrows (mkDF names rows)) =
    (frame_triples rule names rows, Returned tt).
Proof.
  intros Hfits Hrows.
  by apply rows_triples_well_shaped, well_shaped_mkDF.
Qed.


Lemma elem_of_series_triples (rule : MappingRule) (rows : list Series)
    (t : triple) :
  t ∈ series_triples rule rows ↔
  ∃ row, row ∈ rows ∧ t ∈ (row_triples rule row).1.
Proof.
  unfold series_triples. induction rows as [|r rows IH]; simpl.
  - split; [intros Ht; by apply elem_of_nil in Ht|].
    intros (row & Hin & _). by apply elem_of_nil in Hin.
  - rewrite elem_of_app, IH. split.
    + intros [Ht|(row & Hin & Ht)].
      * exists r. split; [by left|done].
      * exists row. split; [by right|done].
    + intros (row & Hin & Ht). apply elem_of_cons in Hin as [->|Hin].
      * by left.
      * right. by exists row.
Qed.

Lemma row_in_series (rule : MappingRule) (rows : list Series) (row : Series) :
  row ∈ rows → (row_triples rule row).1 ⊆ series_triples rule rows.
Proof.
  intros Hin t Ht. apply elem_of_series_triples. by exists row.
Qed.


(** Every triple the inner loop emits has the row's subject and one of the
    rule's property identifiers as predicate. *)
Lemma property_triples_predicate (subject : term) (row : Series)
    (props : list (term * string)) (t : triple) :
  t ∈ (property_triples subject row props).1 →
  subject_of t = subject ∧ predicate_of t ∈ props.*1.
Proof.
  induction props as [|[prop col] props IH]; simpl.
  - intros Ht. by apply elem_of_nil in Ht.
  - destruct (series_lookup row col) as [v|]; simpl;
      [|intros Ht; by apply elem_of_nil in Ht].
    destruct (property_triples subject row props) as [ts o]; simpl in *.
    intros Ht. apply elem_of_app in Ht as [Ht|Ht].
    + destruct (pd_notna v); [|by apply elem_of_nil in Ht].
      apply list_elem_of_singleton in Ht as ->. split; [done|]. by left.
    + destruct (IH Ht) as [Hs Hp]. split; [done|]. by right.
Qed.



(** ** Whole files *)

(** A frame whose width is not the declared one is rejected when the
    columns are named, before any triple is added. *)
Lemma process_file_wrong_width (EX : Namespace) (file_name : string)
    (names : list string) (raw : RawFrame) (g : Graph) :
  file_columns !! file_name = Some names →
  ncols raw ≠ length names →
  process_file EX file_name raw g = (g, Raised (ValueError "Length mismatch")).
Proof.
  intros H Hw. unfold process_file. rewrite H.
  unfold bind, set_columns.
  apply Nat.eqb_neq in Hw. by rewrite Hw.
Qed.

Lemma process_file_emits (EX : Namespace) (file_name : string)
    (names : list string) (rule : MappingRule) (raw : RawFrame) :
  file_columns !! file_name = Some names →
  file_name ≠ "iso-languagecodes.txt" →
  mapping_rule EX file_name = Some rule →
  ncols raw = length names →
  emits (process_file EX file_name raw)
    (rows_triples rule (iterrows (mkDF names (raw_rows raw)))).1
    (rows_triples rule (iterrows (mkDF names (raw_rows raw)))).2.
Proof.
  intros H Hne Hrule Hw g.
  destruct (process_file_dispatch EX file_name names raw H Hne)
    as (rule' & Hrule' & ->).
  rewrite Hrule in Hrule'. injection Hrule' as <-.
  destruct raw as [n rows]. simpl in Hw. subst n.
  unfold bind, set_columns. cbn [ncols raw_rows]. rewrite Nat.eqb_refl.
  apply emits_apply_rule.
Qed.

(** Every triple a rule emits is a type assertion or has one of the rule's
    property identifiers as predicate. *)
Lemma rows_triples_predicate (rule : MappingRule) (rows : list Series)
    (t : triple) :
  t ∈ (rows_triples rule rows).1 →
  predicate_of t = RDF_type ∨ predicate_of t ∈ (properties rule).*1.
Proof.
  induction rows as [|row rows IH]; simpl.
  - intros Ht. by apply elem_of_nil in Ht.
  - assert (Hrow : ∀ t, t ∈ (row_triples rule row).1 →
      predicate_of t = RDF_type ∨ predicate_of t ∈ (properties rule).*1).
    { clear. intros t. unfold row_triples.
      destruct (series_lookup row (id_column rule)) as [id|]; simpl;
        [|intros Ht; by apply elem_of_nil in Ht].
      pose proof (property_triples_predicate (row_subject rule id) row
                    (properties rule) t) as Hp.
      destruct (property_triples _ _ _) as [ts o]; simpl in *.
      intros Ht. apply elem_of_cons in Ht as [->|Ht]; [by left|].
      right. by apply Hp. }
    destruct (row_triples rule row) as [ts [[]|e]]; simpl in *.
    + destruct (rows_triples rule rows) as [ts' o]; simpl in *.
      intros Ht. apply elem_of_app in Ht as [Ht|Ht]; auto.
    + auto.
Qed.

(** ** Sets built from lists *)

Lemma list_to_set_remove_dups (l : list triple) :
  list_to_set (remove_dups l) =@{Graph} list_to_set l.
Proof.
  apply set_eq. intros t.
  by rewrite !elem_of_list_to_set, elem_of_remove_dups.
Qed.

Lemma filter_list_to_set (P : triple → Prop) `{∀ t, Decision (P t)}
    (l : list triple) :
  filter P (list_to_set l : Graph) = list_to_set (filter P l).
Proof.
  apply set_eq. intros t.
  by rewrite elem_of_filter, !elem_of_list_to_set, list_elem_of_filter.
Qed.

(** The graph a run leaves when started on the empty graph. *)
Lemma emits_fresh {A} (c : M A) ts o :
  emits c ts o → c ∅ = (list_to_set (remove_dups ts), o).
Proof.
  intros H. rewrite H, list_to_set_remove_dups.
  by rewrite (right_id_L ∅ (∪)).
Qed.

(** The same, with the outcome and a list of the same elements left to
    be computed. *)
Lemma emits_fresh_eq {A} (c : M A) ts o l o' :
  emits c ts o → ts ⊆ l → l ⊆ ts → o = o' →
  c ∅ = (list_to_set l, o').
Proof.
  intros H H1 H2 <-. rewrite H, (right_id_L ∅ (∪)). f_equal.
  apply set_eq. intros t. rewrite !elem_of_list_to_set. split; auto.
Qed.

Ltac compute_decide := apply (bool_decide_unpack _); vm_compute; exact I.


(** ** [iso-languagecodes.txt]: the first row never reaches the emitter *)

Lemma iso_first_row_dropped (EX : Namespace) (n : nat) (first : list cell)
    (rest : list (list cell)) (g : Graph) :
  process_file EX "iso-languagecodes.txt" (mkRaw n (first :: rest)) g =
    (let* df := set_columns (mkRaw n (first :: rest)) iso_columns in
     apply_rule (iso_language_rule EX) (without_first_row df)) g.
Proof.
  rewrite process_file_dispatch_iso.
  unfold bind, set_columns. cbn [ncols raw_rows].
  by destruct (n =? _)%nat.
Qed.

(** A whole file of rows of the declared width: [process_file] returns
    normally and adds the triples of the rows that reach the emitter. *)
Lemma process_file_frame (file_name : string) (names : list string)
    (rule : MappingRule) (rows : list (list cell)) :
  file_columns !! file_name = Some names →
  mapping_rule ex_ns file_name = Some rule →
  Forall (λ cells, length cells = length names) rows →
  (file_name = "iso-languagecodes.txt" → rows ≠ []) →
  emits (process_file ex_ns file_name (mkRaw (length names) rows))
    (series_triples rule (iterrows (emitted_frame file_name names rows)))
    (Returned tt).
Proof.
  intros Hfile Hrule Hrows Hne.
  pose proof (rule_fits_recognized _ _ _ Hfile Hrule) as Hfits.
  pose proof (well_shaped_mkDF rule names rows Hfits Hrows) as Hws.
  unfold emitted_frame.
  destruct (decide (file_name = "iso-languagecodes.txt")) as [->|Hniso].
  - change (file_columns !! "iso-languagecodes.txt")
      with (Some iso_columns) in Hfile.
    injection Hfile as <-.
    destruct rows as [|first rest]; [by destruct Hne|].
    intros g. rewrite iso_first_row_dropped. injection Hrule as <-.
    change (set_columns (mkRaw (length iso_columns) (first :: rest))
              iso_columns)
      with (@ret DataFrame (mkDF iso_columns (first :: rest))).
    unfold bind, ret.
    apply (emits_well_shaped (iso_language_rule ex_ns)
             (without_first_row (mkDF iso_columns (first :: rest)))).
    by apply well_shaped_without_first_row.
  - intros g.
    rewrite (process_file_emits ex_ns file_name names rule
               (mkRaw (length names) rows) Hfile Hniso Hrule eq_refl).
    cbn [raw_rows]. by rewrite rows_triples_frame.
Qed.

(** ** What a row holds for a decoded cell *)



(** In a row of an object frame a cell of a column that is not float64 is
    held as decoded. *)
Lemma row_value_object (dt : dtype) (c : cell) :
  dt ≠ DFloat64 → row_value DObject dt c = c.
Proof. intros Hdt. destruct c; simpl; try done. by rewrite decide_False. Qed.

Lemma series_lookup_row_values (names : list string) (common : dtype)
    (dts : list dtype) (cells : list cell) (col : string) (v : cell) :
  series_lookup (zip names (zip_with (row_value common) dts cells)) col
    = Some v →
  ∃ dt c, series_lookup (zip names cells) col = Some c ∧
          v = row_value common dt c.
Proof.
  revert dts cells. induction names as [|n names IH]; intros dts cells; [done|].
  destruct dts as [|d dts], cells as [|c cells]; try done. simpl.
  destruct (decide (n = col)); [|by apply IH].
  intros [= <-]. by exists d, c.
Qed.

Lemma series_lookup_row_values_fwd (names : list string) (common : dtype)
    (dts : list dtype) (cells : list cell) (col : string) (c : cell) :
  length dts = length cells →
  series_lookup (zip names cells) col = Some c →
  ∃ dt, series_lookup (zip names (zip_with (row_value common) dts cells)) col
        = Some (row_value common dt c).
Proof.
  revert dts cells. induction names as [|n names IH]; intros dts cells; [done|].
  destruct dts as [|d dts], cells as [|c' cells]; try done. simpl.
  intros [= Hlen]. destruct (decide (n = col)); [|by apply IH].
  intros [= <-]. by exists d.
Qed.


(** ** Property triples *)

Lemma emitted_frame_well_shaped (file_name : string) (names : list string)
    (rule : MappingRule) (rows : list (list cell)) :
  rule_fits names rule →
  Forall (λ cells, length cells = length names) rows →
  well_shaped rule (emitted_frame file_name names rows) ∧
  columns (emitted_frame file_name names rows) = names.
Proof.
  intros Hfits Hrows. unfold emitted_frame.
  pose proof (well_shaped_mkDF rule names rows Hfits Hrows) as Hws.
  case_decide; [|done]. split; [|done].
  by apply well_shaped_without_first_row.
Qed.

Lemma row_in_iterrows (df : DataFrame) (cells : list cell) :
  cells ∈ data df → series_of df cells ∈ iterrows df.
Proof. intros Hin. apply list_elem_of_fmap. by exists cells. Qed.

(** C1, as the code has it: for every recognised file type, every frame of
    rows of the declared width, every row that reaches the emitter (every
    row; for [iso-languagecodes.txt] every row after the first) and every
    (property, column) pair of the file's rule: [process_file] returns
    normally, the row's triples are among those it adds, and a triple with
    that property as predicate is among the row's triples if and only if
    the decoded cell of the column is not NaN.  Any string counts, a blank
    one too.  The triple is (subject, property, Literal value), subject and
    value being built from what the row Series holds after pandas has given
    the row one dtype.  A NaN cell gives no triple with that predicate. *)
Theorem property_triple_iff_not_nan (file_name : string)
    (names : list string) (rule : MappingRule) (rows : list (list cell))
    (cells : list cell) (prop : term) (col : string) :
  file_columns !! file_name = Some names →
  mapping_rule ex_ns file_name = Some rule →
  Forall (λ r, length r = length names) rows →
  (file_name = "iso-languagecodes.txt" → rows ≠ []) →
  cells ∈ data (emitted_frame file_name names rows) →
  (prop, col) ∈ properties rule →
  let df := emitted_frame file_name names rows in
  ∃ id c v,
    series_lookup (series_of df cells) (id_column rule) = Some id ∧
    series_lookup (zip names cells) col = Some c ∧
    series_lookup (series_of df cells) col = Some v ∧
    pd_notna v = pd_notna c ∧
    emits (process_file ex_ns file_name (mkRaw (length names) rows))
      (series_triples rule (iterrows df)) (Returned tt) ∧
    (row_triples rule (series_of df cells)).1
      ⊆ series_triples rule (iterrows df) ∧
    ∀ s o, (s, prop, o) ∈ (row_triples rule (series_of df cells)).1 ↔
           pd_notna c = true ∧ s = row_subject rule id ∧ o = Literal_from v.
Proof.
  intros Hfile Hrule Hrows Hne Hcells Hin df.
  pose proof (rule_fits_recognized _ _ _ Hfile Hrule) as Hfits.
  destruct (emitted_frame_well_shaped file_name names rule rows Hfits Hrows)
    as [Hws Hcols]. fold df in Hws, Hcols.
  destruct (series_of_fits rule df cells Hws Hcells)
    as (id & Hid & Hout & Hts & Hall).
  assert (is_Some (series_lookup (series_of df cells) col)) as [v Hv].
  { rewrite Forall_forall in Hall. exact (Hall (prop, col) Hin). }
  assert (∃ dt c, series_lookup (zip names cells) col = Some c ∧
                  v = row_value (common_dtype (dtypes df)) dt c)
    as (dt & c & Hc & Hvc).
  { rewrite <- Hcols. by apply (series_lookup_row_values _ _ (dtypes df)). }
  assert (Hna : pd_notna v = pd_notna c)
    by (rewrite Hvc; apply row_value_notna).
  exists id, c, v. split_and!; [done..| | |].
  - by apply process_file_frame.
  - by apply row_in_series, row_in_iterrows.
  - destruct Hfits as (_ & _ & Hnd & Htype).
    intros s o. rewrite Hts, <- Hna.
    destruct (property_triples_present (row_subject rule id)
                (series_of df cells) (properties rule) Hall) as [_ Hchar].
    rewrite elem_of_cons, Hchar. split.
    + intros [Heq|(p & c' & w & Hpc & Hw & Hw' & Heq)].
      * exfalso. apply Htype. injection Heq as _ -> _.
        apply list_elem_of_fmap. by exists (RDF_type, col).
      * injection Heq as -> -> ->.
        assert (c' = col) as -> by (by eapply distinct_keys_functional).
        rewrite Hv in Hw. injection Hw as ->. done.
    + intros (Hv' & -> & ->). right. exists prop, col, v. done.
Qed.

Lemma property_triple_iff_not_nan_witness :
  let df := emitted_frame "hierarchy.txt" ["parentId"; "childId"; "type"]
              (raw_rows hierarchy_numeric) in
  ∃ id c v,
    series_lookup (series_of df [CInt 100; CInt 200; CNaN]) "parentId"
      = Some id ∧
    series_lookup (zip ["parentId"; "childId"; "type"]
                     [CInt 100; CInt 200; CNaN]) "childId" = Some c ∧
    series_lookup (series_of df [CInt 100; CInt 200; CNaN]) "childId"
      = Some v ∧
    pd_notna v = pd_notna c ∧
    emits (process_file ex_ns "hierarchy.txt"
             (mkRaw (length ["parentId"; "childId"; "type"])
                (raw_rows hierarchy_numeric)))
      (series_triples (hierarchy_rule ex_ns) (iterrows df)) (Returned tt) ∧
    (row_triples (hierarchy_rule ex_ns)
       (series_of df [CInt 100; CInt 200; CNaN])).1
      ⊆ series_triples (hierarchy_rule ex_ns) (iterrows df) ∧
    ∀ s o, (s, ex_ns.@"childId", o)
             ∈ (row_triples (hierarchy_rule ex_ns)
                  (series_of df [CInt 100; CInt 200; CNaN])).1 ↔
           pd_notna c = true ∧ s = row_subject (hierarchy_rule ex_ns) id
           ∧ o = Literal_from v.
Proof.
  apply (property_triple_iff_not_nan "hierarchy.txt"
           ["parentId"; "childId"; "type"] (hierarchy_rule ex_ns)
           (raw_rows hierarchy_numeric) [CInt 100; CInt 200; CNaN]
           ex_ns.@"childId" "childId").
  - reflexivity.
  - reflexivity.
  - apply (bool_decide_unpack _). vm_compute. exact I.
  - intros H. discriminate H.
  - apply (bool_decide_unpack _). vm_compute. exact I.
  - apply (bool_decide_unpack _). vm_compute. exact I.
Defined.

(** C1 fails as stated: a value that is blank, here a single space, is
    not NaN and gets its property triple. *)
Lemma blank_value_gets_triple :
  process_file ex_ns "hierarchy.txt" hierarchy_blank_type ∅ =
    (list_to_set [
       (URIRef "http://example.org/geonames/hierarchy100", RDF_type,
        ex_ns.@"Hierarchy");
       (URIRef "http://example.org/geonames/hierarchy100", ex_ns.@"parentId",
        Literal (CInt 100));
       (URIRef "http://example.org/geonames/hierarchy100", ex_ns.@"childId",
        Literal (CInt 200));
       (URIRef "http://example.org/geonames/hierarchy100", ex_ns.@"type",
        Literal (CStr " ")) ],
     Returned tt).
Proof.
  apply (emits_fresh_eq _ _ _ _ _
    (process_file_emits ex_ns "hierarchy.txt" ["parentId"; "childId"; "type"]
       (hierarchy_rule ex_ns) hierarchy_blank_type
       eq_refl ltac:(done) eq_refl eq_refl));
    [compute_decide | compute_decide | reflexivity].
Qed.

(** ** Type assertions *)




(** ** What pandas and rdflib do to integers *)

(** The labels declared for a file are pairwise distinct, so [row[label]]
    is a scalar in every row [process_file] hands to the emitter. *)
Lemma declared_labels_distinct :
  Forall (λ entry : string * list string, NoDup entry.2) file_columns_items.
Proof. compute_decide. Qed.

(** The literal of a NumPy integer is the plain literal of its digits. *)
Lemma Literal_from_numpy_integer (z : Z) :
  Literal_from (CInt64 z) = Literal_from (CStr (pretty z)).
Proof. reflexivity. Qed.

(** In a frame of integers only, the rows hold NumPy integers: the subject
    has the digits, and the literals are plain, not [xsd:integer]. *)
Lemma all_integer_frame_plain_literals :
  process_file ex_ns "adminCode5.txt" admin5_integers ∅ =
    (list_to_set [
       (URIRef "http://example.org/geonames/admin5Code123", RDF_type,
        ex_ns.@"Admin5Code");
       (URIRef "http://example.org/geonames/admin5Code123",
        ex_ns.@"geonameid", Literal (CStr "123"));
       (URIRef "http://example.org/geonames/admin5Code123",
        ex_ns.@"adm5code", Literal (CStr "456")) ],
     Returned tt).
Proof.
  destruct (process_file_dispatch ex_ns "adminCode5.txt"
              ["geonameid"; "adm5code"] admin5_integers eq_refl ltac:(done))
    as (rule & Hrule & _).
  apply (emits_fresh_eq _ _ _ _ _
    (process_file_emits ex_ns "adminCode5.txt" ["geonameid"; "adm5code"]
       rule admin5_integers eq_refl ltac:(done) Hrule eq_refl));
    injection Hrule as <-;
    [compute_decide | compute_decide | reflexivity].
Qed.

(** ** The identifier column *)




(** ** The graph is a set *)

(** C6, as the code has it: the accumulator is rdflib's [Graph], a set.
    The script never checks for duplicates itself (each emitted triple is
    handed to [g.add]), yet adding a triple that is already stored leaves
    the graph as it was, with as many triples as before; so adding a triple
    twice is the same as adding it once. *)
Theorem graph_add_present_unchanged (t : triple) (g : Graph) :
  t ∈ g →
  graph_add t g = (g, Returned tt) ∧
  size (graph_add t g).1 = size g ∧
  (graph_add t ;; graph_add t) g = graph_add t g.
Proof.
  intros Hin.
  assert (Hg : {[t]} ∪ g = g).
  { apply subseteq_union_1_L. by apply singleton_subseteq_l. }
  unfold bind, graph_add. cbn [fst snd]. rewrite Hg. split_and!; [done..|].
  by rewrite Hg.
Qed.

Lemma graph_add_present_unchanged_witness :
  graph_add (URIRef "http://example.org/geonames/hierarchy100", RDF_type,
             ex_ns.@"Hierarchy")
    {[ (URIRef "http://example.org/geonames/hierarchy100", RDF_type,
        ex_ns.@"Hierarchy") ]} =
    ({[ (URIRef "http://example.org/geonames/hierarchy100", RDF_type,
         ex_ns.@"Hierarchy") ]}, Returned tt).
Proof.
  apply (graph_add_present_unchanged
           (URIRef "http://example.org/geonames/hierarchy100", RDF_type,
            ex_ns.@"Hierarchy")).
  apply elem_of_singleton. reflexivity.
Defined.

(** C6 fails as stated: adding one triple twice to the fresh graph leaves a
    graph of one triple, the same graph as after the first [add]. *)
Lemma duplicate_add_does_not_accumulate :
  let t := (URIRef "http://example.org/geonames/hierarchy100", RDF_type,
            ex_ns.@"Hierarchy") in
  (graph_add t ;; graph_add t) create_graph.1 = graph_add t create_graph.1 ∧
  size ((graph_add t ;; graph_add t) create_graph.1).1 = 1.
Proof.
  intros t. unfold bind, graph_add, create_graph. cbn [fst snd].
  rewrite (right_id_L ∅ (∪)), (idemp_L (∪)).
  split; [done|]. apply size_singleton.
Qed.

(** ** [hierarchy.txt] *)

Lemma hierarchy_two_rows_emits :
  emits (process_file ex_ns "hierarchy.txt" hierarchy_two_rows)
    (rows_triples (hierarchy_rule ex_ns)
       (iterrows (mkDF ["parentId"; "childId"; "type"]
                    (raw_rows hierarchy_two_rows)))).1
    (rows_triples (hierarchy_rule ex_ns)
       (iterrows (mkDF ["parentId"; "childId"; "type"]
                    (raw_rows hierarchy_two_rows)))).2.
Proof. by apply process_file_emits. Qed.

(** C4, as the code has it: the two rows give one subject,
    [...hierarchy100].  The emitter hands eight triples to the graph (per
    row: the type assertion, [parentId], [childId], [type]); the graph, a
    set, keeps five: the type assertion, one [parentId] triple, the two
    [childId] triples and one [type] triple. *)
Theorem hierarchy_two_rows_graph :
  let s := URIRef "http://example.org/geonames/hierarchy100" in
  let stored :=
    [ (s, RDF_type, ex_ns.@"Hierarchy");
      (s, ex_ns.@"parentId", Literal (CInt 100));
      (s, ex_ns.@"childId", Literal (CInt 200));
      (s, ex_ns.@"type", Literal (CStr "ADM"));
      (s, ex_ns.@"childId", Literal (CInt 300)) ] in
  process_file ex_ns "hierarchy.txt" hierarchy_two_rows ∅ =
    (list_to_set stored, Returned tt) ∧
  NoDup stored ∧
  emits (process_file ex_ns "hierarchy.txt" hierarchy_two_rows)
    [ (s, RDF_type, ex_ns.@"Hierarchy");
      (s, ex_ns.@"parentId", Literal (CInt 100));
      (s, ex_ns.@"childId", Literal (CInt 200));
      (s, ex_ns.@"type", Literal (CStr "ADM"));
      (s, RDF_type, ex_ns.@"Hierarchy");
      (s, ex_ns.@"parentId", Literal (CInt 100));
      (s, ex_ns.@"childId", Literal (CInt 300));
      (s, ex_ns.@"type", Literal (CStr "ADM")) ]
    (Returned tt).
Proof.
  intros s stored.
  pose proof hierarchy_two_rows_emits as Hem.
  split_and!.
  - apply (emits_fresh_eq _ _ _ _ _ Hem);
      [compute_decide | compute_decide | reflexivity].
  - compute_decide.
  - exact Hem.
Qed.

(** C4 fails as stated: the subject does not carry two [type] triples next
    to two [childId] triples; the graph holds one [type] triple and one
    [parentId] triple on it, and the emitter handed the graph six property
    triples, not four. *)
Lemma hierarchy_two_rows_not_two_type_triples :
  let g := (process_file ex_ns "hierarchy.txt" hierarchy_two_rows ∅).1 in
  size (filter (λ t, predicate_of t = ex_ns.@"type") g) = 1 ∧
  size (filter (λ t, predicate_of t = ex_ns.@"parentId") g) = 1 ∧
  length (filter (λ t, predicate_of t ≠ RDF_type)
            (rows_triples (hierarchy_rule ex_ns)
               (iterrows (mkDF ["parentId"; "childId"; "type"]
                            (raw_rows hierarchy_two_rows)))).1) = 6.
Proof.
  rewrite (emits_fresh _ _ _ hierarchy_two_rows_emits). cbn [fst].
  rewrite !filter_list_to_set.
  split_and!.
  - rewrite size_list_to_set; [by vm_compute|].
    apply NoDup_filter, NoDup_remove_dups.
  - rewrite size_list_to_set; [by vm_compute|].
    apply NoDup_filter, NoDup_remove_dups.
  - by vm_compute.
Qed.

(** ** [countryInfo.txt] *)

Lemma country_row_FR_emits :
  emits (process_file ex_ns "countryInfo.txt" country_row_FR)
    (rows_triples (country_info_rule ex_ns)
       (iterrows (mkDF
          ["ISO"; "ISO3"; "ISO-Numeric"; "fips"; "Country"; "Capital";
           "Area(in sq km)"; "Population"; "Continent"; "tld"; "CurrencyCode";
           "CurrencyName"; "Phone"; "Postal Code Format"]
          (raw_rows country_row_FR)))).1
    (rows_triples (country_info_rule ex_ns)
       (iterrows (mkDF
          ["ISO"; "ISO3"; "ISO-Numeric"; "fips"; "Country"; "Capital";
           "Area(in sq km)"; "Population"; "Continent"; "tld"; "CurrencyCode";
           "CurrencyName"; "Phone"; "Postal Code Format"]
          (raw_rows country_row_FR)))).2.
Proof. by apply process_file_emits. Qed.

(** No run of [process_file] on [countryInfo.txt] adds a triple whose
    predicate is one of the unmapped properties. *)
Lemma country_info_never_unmapped (raw : RawFrame) (g : Graph) (t : triple) :
  t ∈ (process_file ex_ns "countryInfo.txt" raw g).1 →
  t ∉ g →
  predicate_of t ∉ country_info_unmapped ex_ns.
Proof.
  intros Ht Hg.
  destruct (decide (ncols raw = 14)) as [Hw|Hw].
  - rewrite (process_file_emits ex_ns "countryInfo.txt" _
               (country_info_rule ex_ns) raw eq_refl ltac:(done) eq_refl Hw)
      in Ht.
    cbn [fst] in Ht. apply elem_of_union in Ht as [Ht|Ht]; [|done].
    apply elem_of_list_to_set, rows_triples_predicate in Ht.
    intros Hbad.
    assert (Hdisj : Forall (λ p, p ∉ country_info_unmapped ex_ns)
              (RDF_type :: (properties (country_info_rule ex_ns)).*1))
      by compute_decide.
    rewrite Forall_forall in Hdisj.
    destruct Ht as [Ht|Ht].
    + apply (Hdisj (predicate_of t)); [rewrite Ht; by left | done].
    + apply (Hdisj (predicate_of t)); [by right | done].
  - rewrite (process_file_wrong_width ex_ns "countryInfo.txt" _ raw g eq_refl Hw)
      in Ht. done.
Qed.

(** C5, as the code has it: the row gives the type assertion on
    [...countryInfoFR] and five property triples, one for each mapped column
    that is filled in ([iso], [country], [capital], [population],
    [postal_code_format]); and whatever frame is read, no triple for
    [neighbours], [languages] or another unmapped property is added. *)
Theorem country_row_FR_graph :
  let s := URIRef "http://example.org/geonames/countryInfoFR" in
  let stored :=
    [ (s, RDF_type, ex_ns.@"CountryInfo");
      (s, ex_ns.@"iso", Literal (CStr "FR"));
      (s, ex_ns.@"country", Literal (CStr "France"));
      (s, ex_ns.@"capital", Literal (CStr "Paris"));
      (s, ex_ns.@"population", Literal (CInt 67000000));
      (s, ex_ns.@"postal_code_format", Literal (CStr "#####")) ] in
  process_file ex_ns "countryInfo.txt" country_row_FR ∅ =
    (list_to_set stored, Returned tt) ∧
  NoDup stored ∧
  length (filter (λ t, predicate_of t ≠ RDF_type) stored) = 5 ∧
  ∀ (raw : RawFrame) (g : Graph) (t : triple),
    t ∈ (process_file ex_ns "countryInfo.txt" raw g).1 →
    t ∉ g →
    predicate_of t ∉ country_info_unmapped ex_ns.
Proof.
  intros s stored. split_and!.
  - apply (emits_fresh_eq _ _ _ _ _ country_row_FR_emits);
      [compute_decide | compute_decide | reflexivity].
  - compute_decide.
  - by vm_compute.
  - apply country_info_never_unmapped.
Qed.

(** C5 fails as stated: the graph holds five property triples for the row,
    not three. *)
Lemma country_row_FR_not_three_properties :
  size (filter (λ t, predicate_of t ≠ RDF_type)
          (process_file ex_ns "countryInfo.txt" country_row_FR ∅).1) = 5.
Proof.
  rewrite (emits_fresh _ _ _ country_row_FR_emits). cbn [fst].
  rewrite filter_list_to_set, size_list_to_set; [by vm_compute|].
  apply NoDup_filter, NoDup_remove_dups.
Qed.

(** ** [iso-languagecodes.txt] *)

(** When the first row restates the column names every column is a column
    of strings or holds strings next to other fields: object dtype. *)
Lemma header_row_object_dtypes (rest : list (list cell)) :
  infer_dtypes 4 (iso_header_row :: rest)
    = [DObject; DObject; DObject; DObject].
Proof. reflexivity. Qed.

(** C7: when the first decoded row of [iso-languagecodes.txt] restates the
    column names, it is left out: the file is processed as the emitter
    processes the frame without its first row, a file of that single row
    adds no triple, although the emitter would have produced triples for
    that row. *)
Theorem iso_header_row_excluded (n : nat) (first : list cell)
    (rest : list (list cell)) (g : Graph) :
  first = iso_header_row →
  process_file ex_ns "iso-languagecodes.txt" (mkRaw n (first :: rest)) g =
    (let* df := set_columns (mkRaw n (first :: rest)) iso_columns in
     apply_rule (iso_language_rule ex_ns) (without_first_row df)) g ∧
  emits (process_file ex_ns "iso-languagecodes.txt" (mkRaw 4 [first]))
    [] (Returned tt) ∧
  (row_triples (iso_language_rule ex_ns) (zip iso_columns first)).1 ≠ [] ∧
  series_of (mkDF iso_columns (first :: rest)) first = zip iso_columns first.
Proof.
  intros ->. split_and!.
  - apply iso_first_row_dropped.
  - intros g'. rewrite iso_first_row_dropped. apply emits_apply_rule.
  - by vm_compute.
  - reflexivity.
Qed.

Lemma iso_header_row_excluded_witness :
  process_file ex_ns "iso-languagecodes.txt"
    (mkRaw 4 [iso_header_row; iso_row_aaa]) ∅ =
    (let* df := set_columns (mkRaw 4 [iso_header_row; iso_row_aaa])
                  iso_columns in
     apply_rule (iso_language_rule ex_ns) (without_first_row df)) ∅ ∧
  emits (process_file ex_ns "iso-languagecodes.txt" (mkRaw 4 [iso_header_row]))
    [] (Returned tt) ∧
  (row_triples (iso_language_rule ex_ns)
     (zip iso_columns iso_header_row)).1 ≠ [] ∧
  series_of (mkDF iso_columns [iso_header_row; iso_row_aaa]) iso_header_row
    = zip iso_columns iso_header_row.
Proof.
  apply (iso_header_row_excluded 4 iso_header_row [iso_row_aaa] ∅).
  reflexivity.
Defined.

(** C10: the first decoded row of [iso-languagecodes.txt] is removed
    whatever it holds: the run is that of the emitter on the frame without
    its first row, and a file of one row adds no triple.  The first row
    matters to the other rows only through the dtypes it gives the columns:
    two first rows that give the columns the same dtypes give the same
    run. *)
Theorem iso_first_row_always_dropped (n : nat) (first first' : list cell)
    (rest : list (list cell)) (g : Graph) :
  process_file ex_ns "iso-languagecodes.txt" (mkRaw n (first :: rest)) g =
    (let* df := set_columns (mkRaw n (first :: rest)) iso_columns in
     apply_rule (iso_language_rule ex_ns) (without_first_row df)) g ∧
  (infer_dtypes n (first :: rest) = infer_dtypes n (first' :: rest) →
   process_file ex_ns "iso-languagecodes.txt" (mkRaw n (first :: rest)) g =
   process_file ex_ns "iso-languagecodes.txt" (mkRaw n (first' :: rest)) g) ∧
  emits (process_file ex_ns "iso-languagecodes.txt" (mkRaw 4 [first]))
    [] (Returned tt).
Proof.
  split_and!.
  - apply iso_first_row_dropped.
  - intros Hdts. rewrite !iso_first_row_dropped.
    unfold bind, set_columns. cbn [ncols raw_rows].
    destruct (n =? _)%nat; [|done]. unfold ret, without_first_row.
    cbn [columns data dtypes tail]. by rewrite Hdts.
  - intros g'. rewrite iso_first_row_dropped. apply emits_apply_rule.
Qed.

(** ** City files *)

(** C8: the four city file names run the same code on the same frame: the
    columns are named alike and [process_cities] is called, so the graph and
    the outcome are the same whichever of the names is given. *)
Theorem city_files_same_triples (EX : Namespace) (raw : RawFrame) (g : Graph) :
  process_file EX "cities500.txt" raw g =
    (let* df := set_columns raw city_columns in process_cities EX df) g ∧
  process_file EX "cities1000.txt" raw g =
    process_file EX "cities500.txt" raw g ∧
  process_file EX "cities5000.txt" raw g =
    process_file EX "cities500.txt" raw g ∧
  process_file EX "cities15000.txt" raw g =
    process_file EX "cities500.txt" raw g.
Proof. split_and!; reflexivity. Qed.

(** ** Unrecognised names *)

(** C9: a file whose name is not a key of [file_columns] leaves the graph
    as it was and returns normally. *)
Theorem unrecognized_file_skipped (EX : Namespace) (file_name : string)
    (raw : RawFrame) (g : Graph) :
  file_name ∉ file_columns_items.*1 →
  process_file EX file_name raw g = (g, Returned tt).
Proof.
  intros Hnot. unfold process_file, file_columns.
  by rewrite (not_elem_of_list_to_map_1 _ _ Hnot).
Qed.

Lemma unrecognized_file_skipped_witness :
  process_file ex_ns "readme.txt" country_row_FR ∅ = (∅, Returned tt).
Proof.
  apply (unrecognized_file_skipped ex_ns "readme.txt" country_row_FR ∅).
  apply (bool_decide_unpack _). vm_compute. exact I.
Defined.

(** * Further properties of the script *)

(** ** Traces of whole runs *)

Lemma series_lookup_zip_None (names : list string) (cells : list cell)
    (label : string) :
  label ∉ names → series_lookup (zip names cells) label = None.
Proof.
  revert cells. induction names as [|n names IH]; intros cells Hnot; [done|].
  destruct cells as [|c cells]; [done|]. simpl.
  apply not_elem_of_cons in Hnot as [Hne Hnot].
  rewrite decide_False by done. by apply IH.
Qed.

(** The object of a property triple is the literal of a cell that is not
    NaN, read from the column the rule gives for the predicate. *)
Lemma property_triples_shape (subject : term) (row : Series)
    (props : list (term * string)) (t : triple) :
  t ∈ (property_triples subject row props).1 →
  ∃ prop col v, (prop, col) ∈ props ∧ series_lookup row col = Some v ∧
                pd_notna v = true ∧ t = (subject, prop, Literal_from v).
Proof.
  induction props as [|[prop col] props IH]; simpl.
  - intros Ht. by apply elem_of_nil in Ht.
  - destruct (series_lookup row col) as [v|] eqn:Hv; simpl;
      [|intros Ht; by apply elem_of_nil in Ht].
    destruct (property_triples subject row props) as [ts o]; simpl in *.
    intros Ht. apply elem_of_app in Ht as [Ht|Ht].
    + destruct (pd_notna v) eqn:Hna; [|by apply elem_of_nil in Ht].
      apply list_elem_of_singleton in Ht as ->.
      exists prop, col, v. split_and!; [by left|done..].
    + destruct (IH Ht) as (p & c & w & Hin & Hw & Hna & ->).
      exists p, c, w. split_and!; [by right|done..].
Qed.

Lemma literal_value_notna (v : cell) :
  pd_notna v = true → pd_notna (literal_value v) = true.
Proof. by destruct v as [| | | | |?|[]]. Qed.

Lemma rows_triples_shape (rule : MappingRule) (rows : list Series)
    (t : triple) :
  t ∈ (rows_triples rule rows).1 →
  ∃ id, subject_of t = row_subject rule id ∧
    (t = (row_subject rule id, RDF_type, subject_class rule) ∨
     ∃ prop col v, (prop, col) ∈ properties rule ∧ pd_notna v = true ∧
                   t = (row_subject rule id, prop, Literal v)).
Proof.
  induction rows as [|row rows IH]; simpl.
  - intros Ht. by apply elem_of_nil in Ht.
  - assert (Hrow : t ∈ (row_triples rule row).1 →
      ∃ id, subject_of t = row_subject rule id ∧
        (t = (row_subject rule id, RDF_type, subject_class rule) ∨
         ∃ prop col v, (prop, col) ∈ properties rule ∧ pd_notna v = true ∧
                       t = (row_subject rule id, prop, Literal v))).
    { clear. unfold row_triples.
      destruct (series_lookup row (id_column rule)) as [id|]; simpl;
        [|intros Ht; by apply elem_of_nil in Ht].
      pose proof (property_triples_shape (row_subject rule id) row
                    (properties rule) t) as Hp.
      destruct (property_triples _ _ _) as [ts o]; simpl in *.
      intros Ht. exists id. apply elem_of_cons in Ht as [->|Ht].
      - split; [done|by left].
      - destruct (Hp Ht) as (p & c & v & Hin & _ & Hna & ->).
        split; [done|]. right. exists p, c, (literal_value v).
        split_and!; [done| |done]. by apply literal_value_notna. }
    destruct (row_triples rule row) as [ts [[]|e]]; simpl in *.
    + destruct (rows_triples rule rows) as [ts' o]; simpl in *.
      intros Ht. apply elem_of_app in Ht as [Ht|Ht]; auto.
    + auto.
Qed.

(** Whatever the name and the frame, a run of [process_file] adds a list of
    triples that does not depend on the graph it starts from; the list is
    empty, or made by the file's rule from some rows. *)
Lemma process_file_trace (EX : Namespace) (file_name : string)
    (raw : RawFrame) :
  ∃ ts o, emits (process_file EX file_name raw) ts o ∧
    (ts = [] ∨
     ∃ rule rows, mapping_rule EX file_name = Some rule ∧
                  ts = (rows_triples rule rows).1 ∧
                  (length rows ≤ length (raw_rows raw))%nat).
Proof.
  destruct (file_columns !! file_name) as [names|] eqn:Hfile.
  - destruct (decide (file_name = "iso-languagecodes.txt")) as [->|Hniso].
    + destruct (decide (ncols raw = 4)) as [Hw|Hw].
      * destruct raw as [n [|first rest]]; simpl in Hw; subst n.
        -- exists [], (Raised (KeyError "[0] not found in axis")).
           split; [|by left]. intros g. rewrite process_file_dispatch_iso.
           unfold bind, set_columns, drop_0; simpl.
           by rewrite (left_id_L ∅ (∪)).
        -- eexists _, _. split.
           ++ intros g. rewrite iso_first_row_dropped.
              unfold bind, set_columns; simpl. apply emits_apply_rule.
           ++ right. eexists _, _. split_and!; [done..|].
              unfold iterrows. rewrite length_map. simpl. lia.
      * exists [], (Raised (ValueError "Length mismatch")).
        split; [|by left]. intros g.
        rewrite (process_file_wrong_width EX _ _ raw g Hfile);
          [|by injection Hfile as <-].
        simpl. by rewrite (left_id_L ∅ (∪)).
    + destruct (process_file_dispatch EX file_name names raw Hfile Hniso)
        as (rule & Hrule & Heq).
      destruct (decide (ncols raw = length names)) as [Hw|Hw].
      * eexists _, _. split.
        -- by apply (process_file_emits EX file_name names rule raw).
        -- right. eexists _, _. split_and!; [done..|].
           unfold iterrows. by rewrite length_map.
      * exists [], (Raised (ValueError "Length mismatch")).
        split; [|by left]. intros g.
        rewrite (process_file_wrong_width EX _ _ raw g Hfile Hw).
        simpl. by rewrite (left_id_L ∅ (∪)).
  - exists [], (Returned tt). split; [|by left]. intros g.
    unfold process_file. rewrite Hfile. apply emits_ret.
Qed.

(** X1: a recognised file whose frame does not have the declared number of
    columns is rejected with [ValueError] when the columns are named, and the
    graph is left as it was. *)
Theorem wrong_width_raises_ValueError (EX : Namespace) (file_name : string)
    (names : list string) (raw : RawFrame) (g : Graph) :
  file_columns !! file_name = Some names →
  ncols raw ≠ length names →
  process_file EX file_name raw g = (g, Raised (ValueError "Length mismatch")).
Proof. apply process_file_wrong_width. Qed.

Lemma wrong_width_raises_ValueError_witness :
  process_file ex_ns "countryInfo.txt"
    (mkRaw 19 [[CStr "FR"; CStr "FRA"; CInt 250; CStr "FR"; CStr "France";
                CStr "Paris"; CFloat "547030.0"; CInt 67000000; CStr "EU";
                CStr ".fr"; CStr "EUR"; CStr "Euro"; CInt 33; CStr "#####";
                CStr "^(\d{5})$"; CStr "fr-FR"; CInt 3017382; CStr "CH,DE";
                CNaN]]) ∅ =
    (∅, Raised (ValueError "Length mismatch")).
Proof.
  apply (wrong_width_raises_ValueError ex_ns "countryInfo.txt"
           ["ISO"; "ISO3"; "ISO-Numeric"; "fips"; "Country"; "Capital";
            "Area(in sq km)"; "Population"; "Continent"; "tld"; "CurrencyCode";
            "CurrencyName"; "Phone"; "Postal Code Format"]).
  - reflexivity.
  - simpl. lia.
Defined.

(** X2: a recognised file whose frame has the declared number of columns in
    every row is processed without exception, and a triple is in the graph
    afterwards exactly if it was there before or is one of the triples of a
    row that reaches the emitter (every row; for [iso-languagecodes.txt],
    every row after the first), taken as [iterrows] yields it, that is
    after pandas has given the row one dtype. *)
Theorem well_formed_file_graph (file_name : string) (names : list string)
    (rule : MappingRule) (rows : list (list cell)) (g : Graph) :
  file_columns !! file_name = Some names →
  mapping_rule ex_ns file_name = Some rule →
  Forall (λ cells, length cells = length names) rows →
  (file_name = "iso-languagecodes.txt" → rows ≠ []) →
  (process_file ex_ns file_name (mkRaw (length names) rows) g).2
    = Returned tt ∧
  ∀ t, t ∈ (process_file ex_ns file_name (mkRaw (length names) rows) g).1 ↔
       t ∈ g ∨
       ∃ cells, cells ∈ data (emitted_frame file_name names rows) ∧
         t ∈ (row_triples rule
                (series_of (emitted_frame file_name names rows) cells)).1.
Proof.
  intros Hfile Hrule Hrows Hne.
  rewrite (process_file_frame file_name names rule rows Hfile Hrule Hrows Hne g).
  split; [done|]. intros t. cbn [fst].
  rewrite elem_of_union, elem_of_list_to_set, elem_of_series_triples.
  split.
  - intros [(row & Hin & Ht)|Ht]; [|by left]. right.
    apply list_elem_of_fmap in Hin as (cells & -> & Hin). by exists cells.
  - intros [Ht|(cells & Hin & Ht)]; [by right|]. left.
    eexists. split; [|exact Ht]. by apply row_in_iterrows.
Qed.

Lemma well_formed_file_graph_witness :
  (process_file ex_ns "hierarchy.txt"
     (mkRaw (length ["parentId"; "childId"; "type"])
        (raw_rows hierarchy_numeric)) ∅).2 = Returned tt ∧
  ∀ t, t ∈ (process_file ex_ns "hierarchy.txt"
              (mkRaw (length ["parentId"; "childId"; "type"])
                 (raw_rows hierarchy_numeric)) ∅).1 ↔
       t ∈ (∅ : Graph) ∨
       ∃ cells,
         cells ∈ data (emitted_frame "hierarchy.txt"
                         ["parentId"; "childId"; "type"]
                         (raw_rows hierarchy_numeric)) ∧
         t ∈ (row_triples (hierarchy_rule ex_ns)
                (series_of (emitted_frame "hierarchy.txt"
                              ["parentId"; "childId"; "type"]
                              (raw_rows hierarchy_numeric)) cells)).1.
Proof.
  apply (well_formed_file_graph "hierarchy.txt"
           ["parentId"; "childId"; "type"] (hierarchy_rule ex_ns)
           (raw_rows hierarchy_numeric) ∅).
  - reflexivity.
  - reflexivity.
  - apply (bool_decide_unpack _). vm_compute. exact I.
  - intros H. discriminate H.
Defined.

(** X3: the graph only grows.  Whatever the file name, the frame and the
    outcome (normal return or exception), every triple that was in the graph
    before [process_file] is in it afterwards. *)
Theorem process_file_keeps_triples (EX : Namespace) (file_name : string)
    (raw : RawFrame) (g : Graph) :
  g ⊆ (process_file EX file_name raw g).1.
Proof.
  destruct (process_file_trace EX file_name raw) as (ts & o & Hem & _).
  rewrite Hem. cbn [fst]. apply union_subseteq_r.
Qed.

(** X4: what [process_file] never stores.  Every triple it adds has as
    subject the rule's prefix followed by a formatted identifier cell, and is
    either the type assertion of the rule's class or a property triple whose
    predicate is one of the rule's properties and whose object is the
    literal of a cell that is not NaN. *)
Theorem added_triples_shape (EX : Namespace) (file_name : string)
    (raw : RawFrame) (g : Graph) (t : triple) :
  t ∈ (process_file EX file_name raw g).1 →
  t ∉ g →
  ∃ rule id,
    mapping_rule EX file_name = Some rule ∧
    (t = (row_subject rule id, RDF_type, subject_class rule) ∨
     ∃ prop col v, (prop, col) ∈ properties rule ∧ pd_notna v = true ∧
                   t = (row_subject rule id, prop, Literal v)).
Proof.
  intros Ht Hg.
  destruct (process_file_trace EX file_name raw) as (ts & o & Hem & Hts).
  rewrite Hem in Ht. cbn [fst] in Ht.
  apply elem_of_union in Ht as [Ht|Ht]; [|done].
  apply elem_of_list_to_set in Ht.
  destruct Hts as [->|(rule & rows & Hrule & -> & _)];
    [by apply elem_of_nil in Ht|].
  apply rows_triples_shape in Ht as (id & _ & Hshape).
  by exists rule, id.
Qed.

Lemma added_triples_shape_witness :
  ∃ rule id,
    mapping_rule ex_ns "hierarchy.txt" = Some rule ∧
    ((URIRef "http://example.org/geonames/hierarchy100", ex_ns.@"childId",
      Literal (CInt 300))
     = (row_subject rule id, RDF_type, subject_class rule) ∨
     ∃ prop col v, (prop, col) ∈ properties rule ∧ pd_notna v = true ∧
       (URIRef "http://example.org/geonames/hierarchy100", ex_ns.@"childId",
        Literal (CInt 300)) = (row_subject rule id, prop, Literal v)).
Proof.
  apply (added_triples_shape ex_ns "hierarchy.txt" hierarchy_two_rows ∅).
  - rewrite (hierarchy_two_rows_emits ∅). cbn [fst].
    apply elem_of_union_l, elem_of_list_to_set.
    apply (bool_decide_unpack _). vm_compute. exact I.
  - apply not_elem_of_empty.
Defined.

(** ** Subjects *)

Lemma string_app_inv_head (p a b : string) : p ++ a = p ++ b → a = b.
Proof. induction p as [|c p IH]; simpl; [done|]. intros [= H]. by apply IH. Qed.

(** Two texts with a common extension: one starts the other. *)
Lemma string_app_prefix (p q a b : string) :
  p ++ a = q ++ b → String.prefix p q = true ∨ String.prefix q p = true.
Proof.
  revert q. induction p as [|c p IH]; intros q H.
  - left. by destruct q.
  - destruct q as [|d q]; [by right|].
    simpl in H. injection H as -> H. simpl.
    destruct (ascii_dec d d); [|done]. by apply IH.
Qed.

Lemma recognized_rule_listed (file_name : string) (names : list string)
    (rule : MappingRule) :
  file_columns !! file_name = Some names →
  mapping_rule ex_ns file_name = Some rule →
  rule ∈ recognized_rules.
Proof.
  intros Hfile Hrule. apply recognized_file in Hfile.
  apply list_elem_of_omap. exists file_name. split; [|done].
  apply list_elem_of_fmap. by exists (file_name, names).
Qed.

(** No prefix of a recognised rule starts the prefix of a different one. *)
Lemma recognized_prefixes_apart :
  Forall (λ r1, Forall (λ r2,
      r1 = r2 ∨ (String.prefix (prefix_text r1) (prefix_text r2) = false ∧
                 String.prefix (prefix_text r2) (prefix_text r1) = false))
    recognized_rules) recognized_rules.
Proof. compute_decide. Qed.

(** X5: a subject tells the entity kind.  If a row of one recognised file
    and a row of another get the same subject, the two files have the same
    mapping rule (same class, prefix and properties) and the two identifier
    cells are formatted alike. *)
Theorem equal_subjects_same_rule (file1 file2 : string)
    (names1 names2 : list string) (rule1 rule2 : MappingRule)
    (id1 id2 : cell) :
  file_columns !! file1 = Some names1 →
  file_columns !! file2 = Some names2 →
  mapping_rule ex_ns file1 = Some rule1 →
  mapping_rule ex_ns file2 = Some rule2 →
  row_subject rule1 id1 = row_subject rule2 id2 →
  rule1 = rule2 ∧ py_format id1 = py_format id2.
Proof.
  intros Hf1 Hf2 Hr1 Hr2 Heq.
  pose proof (recognized_rule_listed _ _ _ Hf1 Hr1) as Hin1.
  pose proof (recognized_rule_listed _ _ _ Hf2 Hr2) as Hin2.
  pose proof recognized_prefixes_apart as Hapart.
  rewrite Forall_forall in Hapart. specialize (Hapart rule1 Hin1).
  rewrite Forall_forall in Hapart. specialize (Hapart rule2 Hin2).
  unfold row_subject in Heq. injection Heq as Heq.
  destruct Hapart as [->|[H12 H21]].
  - split; [done|]. by apply string_app_inv_head in Heq.
  - apply string_app_prefix in Heq. unfold prefix_text in *.
    destruct Heq as [Heq|Heq]; congruence.
Qed.

Lemma equal_subjects_same_rule_witness :
  city_rule ex_ns = city_rule ex_ns ∧
  py_format (CInt 2988507) = py_format (CStr "2988507").
Proof.
  apply (equal_subjects_same_rule "cities500.txt" "cities15000.txt"
           city_columns city_columns (city_rule ex_ns) (city_rule ex_ns)
           (CInt 2988507) (CStr "2988507"));
    reflexivity.
Defined.

(** ** Order and repetition *)

Lemma forallb_same_elems {A} (p : A → bool) (l l' : list A) :
  l ⊆ l' → l' ⊆ l → forallb p l = forallb p l'.
Proof.
  intros H1 H2.
  destruct (forallb p l) eqn:Hl, (forallb p l') eqn:Hl'; try done.
  - rewrite forallb_forall in Hl. rewrite <- Hl'. symmetry.
    apply forallb_forall. intros x Hx. apply Hl.
    by apply list_elem_of_In, H2, list_elem_of_In.
  - rewrite forallb_forall in Hl'. rewrite <- Hl.
    apply forallb_forall. intros x Hx. apply Hl'.
    by apply list_elem_of_In, H1, list_elem_of_In.
Qed.

(** The dtypes of the columns depend on which rows there are, not on
    their order or number. *)
Lemma infer_dtypes_same_rows (n : nat) (rows rows' : list (list cell)) :
  rows ⊆ rows' → rows' ⊆ rows → infer_dtypes n rows = infer_dtypes n rows'.
Proof.
  intros H1 H2. unfold infer_dtypes. apply map_ext. intros j.
  assert (Hcol : ∀ r r' : list (list cell), r ⊆ r' →
    omap (λ row : list cell, row !! j) r
      ⊆ omap (λ row : list cell, row !! j) r').
  { intros r r' Hsub x Hx. apply list_elem_of_omap in Hx as (row & Hin & Hx).
    apply list_elem_of_omap. exists row. split; [by apply Hsub|done]. }
  unfold column_dtype.
  by rewrite !(forallb_same_elems _ _ _ (Hcol _ _ H1) (Hcol _ _ H2)).
Qed.

Lemma elem_of_frame_triples (rule : MappingRule) (df : DataFrame)
    (t : triple) :
  t ∈ series_triples rule (iterrows df) ↔
  ∃ cells, cells ∈ data df ∧ t ∈ (row_triples rule (series_of df cells)).1.
Proof.
  rewrite elem_of_series_triples. split.
  - intros (row & Hin & Ht).
    apply list_elem_of_fmap in Hin as (cells & -> & Hin). by exists cells.
  - intros (cells & Hin & Ht). eexists. split; [|exact Ht].
    by apply row_in_iterrows.
Qed.

(** With the same column dtypes, fewer rows give fewer triples. *)
Lemma frame_triples_mono (rule : MappingRule) (names : list string)
    (rows rows' : list (list cell)) :
  infer_dtypes (length names) rows = infer_dtypes (length names) rows' →
  rows ⊆ rows' →
  frame_triples rule names rows ⊆ frame_triples rule names rows'.
Proof.
  intros Hdts Hsub t. unfold frame_triples. rewrite !elem_of_frame_triples.
  intros (cells & Hin & Ht). exists cells. split; [by apply Hsub|].
  unfold series_of, mkDF in *. cbn [columns dtypes] in *. by rewrite <- Hdts.
Qed.

(** X6: two files can be processed in either order.  When each of two
    [process_file] calls returns normally from a graph, running them one
    after the other from that graph gives the same graph and outcome in both
    orders. *)
Theorem process_file_order_irrelevant (EX : Namespace) (file1 file2 : string)
    (raw1 raw2 : RawFrame) (g : Graph) :
  (process_file EX file1 raw1 g).2 = Returned tt →
  (process_file EX file2 raw2 g).2 = Returned tt →
  (process_file EX file1 raw1 ;; process_file EX file2 raw2) g =
  (process_file EX file2 raw2 ;; process_file EX file1 raw1) g.
Proof.
  destruct (process_file_trace EX file1 raw1) as (ts1 & o1 & Hem1 & _).
  destruct (process_file_trace EX file2 raw2) as (ts2 & o2 & Hem2 & _).
  rewrite Hem1, Hem2. cbn [snd]. intros -> ->.
  unfold bind. rewrite (Hem1 g), (Hem2 g). cbn beta iota.
  rewrite Hem1, Hem2. f_equal.
  rewrite !(assoc_L (∪)). by rewrite (comm_L (∪) (list_to_set ts2)).
Qed.

Lemma process_file_order_irrelevant_witness :
  (process_file ex_ns "hierarchy.txt" hierarchy_two_rows ;;
   process_file ex_ns "countryInfo.txt" country_row_FR) ∅ =
  (process_file ex_ns "countryInfo.txt" country_row_FR ;;
   process_file ex_ns "hierarchy.txt" hierarchy_two_rows) ∅.
Proof.
  apply (process_file_order_irrelevant ex_ns "hierarchy.txt" "countryInfo.txt"
           hierarchy_two_rows country_row_FR ∅).
  - reflexivity.
  - reflexivity.
Defined.

(** X7: for every recognised file but [iso-languagecodes.txt], the graph
    depends on which rows the frame holds, not on their order or on how often
    a row is repeated: two frames of rows of the declared width with the same
    rows give the same graph and outcome. *)
Theorem same_rows_same_graph (file_name : string) (names : list string)
    (rule : MappingRule) (rows rows' : list (list cell)) (g : Graph) :
  file_columns !! file_name = Some names →
  mapping_rule ex_ns file_name = Some rule →
  file_name ≠ "iso-languagecodes.txt" →
  Forall (λ cells, length cells = length names) rows →
  rows ⊆ rows' →
  rows' ⊆ rows →
  process_file ex_ns file_name (mkRaw (length names) rows) g =
  process_file ex_ns file_name (mkRaw (length names) rows') g.
Proof.
  intros Hfile Hrule Hniso Hrows Hsub Hsub'.
  assert (Hrows' : Forall (λ cells, length cells = length names) rows').
  { rewrite Forall_forall in Hrows. apply Forall_forall. auto. }
  pose proof (infer_dtypes_same_rows (length names) rows rows' Hsub Hsub')
    as Hdts.
  rewrite (process_file_frame file_name names rule rows Hfile Hrule Hrows
             ltac:(done) g).
  rewrite (process_file_frame file_name names rule rows' Hfile Hrule Hrows'
             ltac:(done) g).
  unfold emitted_frame. rewrite !decide_False by done. f_equal. f_equal.
  apply set_eq. intros t. rewrite !elem_of_list_to_set.
  split; intros Ht.
  - by apply (frame_triples_mono rule names rows rows').
  - by apply (frame_triples_mono rule names rows' rows).
Qed.

Lemma same_rows_same_graph_witness :
  process_file ex_ns "hierarchy.txt"
    (mkRaw 3 [[CInt 100; CInt 200; CStr "ADM"];
              [CInt 100; CInt 300; CStr "ADM"]]) ∅ =
  process_file ex_ns "hierarchy.txt"
    (mkRaw 3 [[CInt 100; CInt 300; CStr "ADM"];
              [CInt 100; CInt 200; CStr "ADM"];
              [CInt 100; CInt 300; CStr "ADM"]]) ∅.
Proof.
  apply (same_rows_same_graph "hierarchy.txt" ["parentId"; "childId"; "type"]
           (hierarchy_rule ex_ns)
           [[CInt 100; CInt 200; CStr "ADM"]; [CInt 100; CInt 300; CStr "ADM"]]
           [[CInt 100; CInt 300; CStr "ADM"]; [CInt 100; CInt 200; CStr "ADM"];
            [CInt 100; CInt 300; CStr "ADM"]] ∅).
  - reflexivity.
  - reflexivity.
  - discriminate.
  - apply (bool_decide_unpack _). vm_compute. exact I.
  - apply (bool_decide_unpack _). vm_compute. exact I.
  - apply (bool_decide_unpack _). vm_compute. exact I.
Defined.

(** X8: a file whose rows were all processed before adds nothing.  If two
    recognised files (other than [iso-languagecodes.txt]) have the same
    columns and the same rule, as the four city files do, every row of the
    second frame is a row of the first and the columns of the two frames
    have the same dtypes, then processing the second file after the first
    leaves the graph as the first left it.  (With other dtypes pandas may
    yield the same decoded row with other values, integers as floats.) *)
Theorem subset_file_adds_nothing (file1 file2 : string)
    (names : list string) (rule : MappingRule)
    (rows1 rows2 : list (list cell)) (g : Graph) :
  file_columns !! file1 = Some names →
  file_columns !! file2 = Some names →
  mapping_rule ex_ns file1 = Some rule →
  mapping_rule ex_ns file2 = Some rule →
  file1 ≠ "iso-languagecodes.txt" →
  file2 ≠ "iso-languagecodes.txt" →
  Forall (λ cells, length cells = length names) rows1 →
  rows2 ⊆ rows1 →
  infer_dtypes (length names) rows2 = infer_dtypes (length names) rows1 →
  (process_file ex_ns file1 (mkRaw (length names) rows1) ;;
   process_file ex_ns file2 (mkRaw (length names) rows2)) g =
  process_file ex_ns file1 (mkRaw (length names) rows1) g.
Proof.
  intros Hf1 Hf2 Hr1 Hr2 Hn1 Hn2 Hrows1 Hsub Hdts.
  assert (Hrows2 : Forall (λ cells, length cells = length names) rows2).
  { rewrite Forall_forall in Hrows1. apply Forall_forall. auto. }
  unfold bind.
  rewrite (process_file_frame file1 names rule rows1 Hf1 Hr1 Hrows1
             ltac:(done) g).
  rewrite (process_file_frame file2 names rule rows2 Hf2 Hr2 Hrows2
             ltac:(done) _).
  unfold emitted_frame. rewrite !decide_False by done. f_equal.
  apply set_eq. intros t.
  rewrite !elem_of_union, !elem_of_list_to_set. split; [|auto].
  intros [Ht|Ht]; [|done]. left.
  by apply (frame_triples_mono rule names rows2 rows1).
Qed.

Lemma subset_file_adds_nothing_witness :
  (process_file ex_ns "cities500.txt"
     (mkRaw (length city_columns)
        [ [CInt 1; CStr "A"; CStr "A"; CNaN; CFloat "1.5"; CFloat "2.5";
           CStr "P"; CStr "PPL"; CStr "FR"; CNaN; CStr "11"; CNaN; CNaN;
           CNaN; CInt 600; CNaN; CInt 10; CStr "Europe/Paris";
           CStr "2020-01-01"];
          [CInt 2; CStr "B"; CStr "B"; CNaN; CFloat "3.5"; CFloat "4.5";
           CStr "P"; CStr "PPL"; CStr "FR"; CNaN; CStr "11"; CNaN; CNaN;
           CNaN; CInt 1200; CNaN; CInt 20; CStr "Europe/Paris";
           CStr "2020-01-01"] ]) ;;
   process_file ex_ns "cities1000.txt"
     (mkRaw (length city_columns)
        [ [CInt 2; CStr "B"; CStr "B"; CNaN; CFloat "3.5"; CFloat "4.5";
           CStr "P"; CStr "PPL"; CStr "FR"; CNaN; CStr "11"; CNaN; CNaN;
           CNaN; CInt 1200; CNaN; CInt 20; CStr "Europe/Paris";
           CStr "2020-01-01"] ])) ∅ =
  process_file ex_ns "cities500.txt"
    (mkRaw (length city_columns)
       [ [CInt 1; CStr "A"; CStr "A"; CNaN; CFloat "1.5"; CFloat "2.5";
          CStr "P"; CStr "PPL"; CStr "FR"; CNaN; CStr "11"; CNaN; CNaN;
          CNaN; CInt 600; CNaN; CInt 10; CStr "Europe/Paris";
          CStr "2020-01-01"];
         [CInt 2; CStr "B"; CStr "B"; CNaN; CFloat "3.5"; CFloat "4.5";
          CStr "P"; CStr "PPL"; CStr "FR"; CNaN; CStr "11"; CNaN; CNaN;
          CNaN; CInt 1200; CNaN; CInt 20; CStr "Europe/Paris";
          CStr "2020-01-01"] ]) ∅.
Proof.
  apply (subset_file_adds_nothing "cities500.txt" "cities1000.txt"
           city_columns (city_rule ex_ns)).
  - reflexivity.
  - reflexivity.
  - reflexivity.
  - reflexivity.
  - discriminate.
  - discriminate.
  - apply (bool_decide_unpack _). vm_compute. exact I.
  - apply (bool_decide_unpack _). vm_compute. exact I.
  - reflexivity.
Defined.

(** ** The whole run *)

Lemma for_each_app {A} (xs ys : list A) (body : A → M unit) (g : Graph) :
  for_each (xs ++ ys) body g = (for_each xs body ;; for_each ys body) g.
Proof.
  revert g. induction xs as [|x xs IH]; intros g; simpl.
  - reflexivity.
  - unfold bind. destruct (body x g) as [g' [[]|e]]; [|done].
    by rewrite IH.
Qed.

Lemma process_file_unrecognized (EX : Namespace) (file_name : string)
    (raw : RawFrame) (g : Graph) :
  file_name ∉ file_columns_items.*1 →
  process_file EX file_name raw g = (g, Returned tt).
Proof.
  intros Hnot. unfold process_file, file_columns.
  by rewrite (not_elem_of_list_to_map_1 _ _ Hnot).
Qed.

(** X9: [main] ignores files it does not recognise: taking such a file out
    of the directory listing, wherever it stands, changes neither the graph
    nor the outcome of the run. *)
Theorem main_ignores_unrecognized (before after : list (string * RawFrame))
    (file_name : string) (raw : RawFrame) :
  file_name ∉ file_columns_items.*1 →
  main (before ++ (file_name, raw) :: after) = main (before ++ after).
Proof.
  intros Hnot. unfold main, create_graph.
  rewrite !for_each_app. unfold bind.
  destruct (for_each before _ ∅) as [g1 [[]|e]]; [|done].
  simpl. unfold bind.
  by rewrite (process_file_unrecognized _ _ _ _ Hnot).
Qed.

Lemma main_ignores_unrecognized_witness :
  main ([("hierarchy.txt", hierarchy_two_rows)]
        ++ ("readme.txt", mkRaw 1 [[CStr "notes"]])
        :: [("countryInfo.txt", country_row_FR)]) =
  main ([("hierarchy.txt", hierarchy_two_rows)]
        ++ [("countryInfo.txt", country_row_FR)]).
Proof.
  apply (main_ignores_unrecognized [("hierarchy.txt", hierarchy_two_rows)]
           [("countryInfo.txt", country_row_FR)] "readme.txt"
           (mkRaw 1 [[CStr "notes"]])).
  apply (bool_decide_unpack _). vm_compute. exact I.
Defined.

(** X10: [main] stops at the first file that raises.  If the files listed
    before a recognised file of the wrong width were processed normally, the
    run ends with that file's [ValueError]; the graph is the one the earlier
    files left, and the files listed after it are not processed. *)
Theorem main_stops_at_wrong_width (before after : list (string * RawFrame))
    (file_name : string) (names : list string) (raw : RawFrame)
    (g1 : Graph) :
  main before = (g1, Returned tt) →
  file_columns !! file_name = Some names →
  ncols raw ≠ length names →
  main (before ++ (file_name, raw) :: after) =
    (g1, Raised (ValueError "Length mismatch")).
Proof.
  unfold main, create_graph. intros Hbefore Hfile Hw.
  rewrite for_each_app. unfold bind. rewrite Hbefore.
  simpl. unfold bind.
  by rewrite (process_file_wrong_width _ _ _ raw g1 Hfile Hw).
Qed.

Lemma main_stops_at_wrong_width_witness :
  main ([("readme.txt", mkRaw 1 [[CStr "notes"]])]
        ++ ("hierarchy.txt", mkRaw 2 [[CInt 100; CInt 200]])
        :: [("countryInfo.txt", country_row_FR)]) =
    (∅, Raised (ValueError "Length mismatch")).
Proof.
  apply (main_stops_at_wrong_width
           [("readme.txt", mkRaw 1 [[CStr "notes"]])]
           [("countryInfo.txt", country_row_FR)]
           "hierarchy.txt" ["parentId"; "childId"; "type"]
           (mkRaw 2 [[CInt 100; CInt 200]]) ∅).
  - reflexivity.
  - reflexivity.
  - simpl. lia.
Defined.

(** ** [add_triples] on a frame that lacks a column *)

(** X11: when the frame has no column labelled [id_column], [add_triples]
    raises [KeyError] for that label at the first row and leaves the graph
    as it was; on a frame without rows it looks nothing up and returns
    normally. *)
Theorem add_triples_missing_id_column (cols : list string)
    (cells : list cell) (rest : list (list cell))
    (subject_class subject_prefix : term) (props : list (term * string))
    (id_column : string) (g : Graph) :
  id_column ∉ cols →
  add_triples (mkDF cols (cells :: rest)) subject_class subject_prefix
    props id_column g = (g, Raised (KeyError id_column)) ∧
  add_triples (mkDF cols []) subject_class subject_prefix
    props id_column g = (g, Returned tt).
Proof.
  intros Hnot. split; [|done].
  unfold add_triples, iterrows, series_of; simpl. unfold bind, getitem.
  by rewrite (series_lookup_zip_None cols _ _ Hnot).
Qed.

Lemma add_triples_missing_id_column_witness :
  add_triples (mkDF ["ISO 639-3"; "Language Name"] [[CStr "aaa"; CStr "Ghotuo"]])
    ex_ns.@"ISOLanguageCode" ex_ns.@"isoLanguageCode"
    [(ex_ns.@"iso_639_3", "ISO_639_3")] "ISO_639_3" ∅ =
    (∅, Raised (KeyError "ISO_639_3")) ∧
  add_triples (mkDF ["ISO 639-3"; "Language Name"] [])
    ex_ns.@"ISOLanguageCode" ex_ns.@"isoLanguageCode"
    [(ex_ns.@"iso_639_3", "ISO_639_3")] "ISO_639_3" ∅ = (∅, Returned tt).
Proof.
  apply (add_triples_missing_id_column ["ISO 639-3"; "Language Name"]
           [CStr "aaa"; CStr "Ghotuo"] []).
  apply (bool_decide_unpack _). vm_compute. exact I.
Defined.

Lemma property_triples_missing (subject : term) (row : Series)
    (pre post : list (term * string)) (prop : term) (col : string) :
  Forall (λ pc, is_Some (series_lookup row pc.2)) pre →
  series_lookup row col = None →
  (property_triples subject row (pre ++ (prop, col) :: post)).2 =
    Raised (KeyError col).
Proof.
  intros Hpre Hcol. induction Hpre as [|[p c] pre [v Hv] _ IH]; simpl.
  - by rewrite Hcol.
  - simpl in Hv. rewrite Hv.
    by destruct (property_triples subject row (pre ++ (prop, col) :: post)).
Qed.

(** X12: when the labels of the frame are pairwise distinct, the
    identifier column is among them and the column of one of the properties
    is not, [add_triples] raises [KeyError] for the first such column while
    it handles the first row; by then the graph has received that row's
    type assertion, and it keeps it. *)
Theorem add_triples_missing_property_column (cols : list string)
    (cells : list cell) (rest : list (list cell))
    (subject_class subject_prefix : term)
    (pre post : list (term * string)) (prop : term) (col : string)
    (id_column : string) (id : cell) (g : Graph) :
  NoDup cols →
  series_lookup (series_of (mkDF cols (cells :: rest)) cells) id_column
    = Some id →
  Forall (λ pc, pc.2 ∈ cols) pre →
  col ∉ cols →
  length cells = length cols →
  (add_triples (mkDF cols (cells :: rest)) subject_class subject_prefix
     (pre ++ (prop, col) :: post) id_column g).2 = Raised (KeyError col) ∧
  (URIRef (term_format subject_prefix ++ py_format id), RDF_type,
   subject_class)
    ∈ (add_triples (mkDF cols (cells :: rest)) subject_class subject_prefix
         (pre ++ (prop, col) :: post) id_column g).1.
Proof.
  intros _ Hid Hpre Hcol Hlen.
  pose proof (emits_apply_rule
    (mkRule subject_class subject_prefix (pre ++ (prop, col) :: post)
       id_column) (mkDF cols (cells :: rest)) g) as Hem.
  unfold apply_rule in Hem. simpl in Hem. rewrite Hem. clear Hem.
  unfold row_triples; simpl. rewrite Hid.
  assert (Hvals : length (row_values (dtypes (mkDF cols (cells :: rest))) cells)
                  = length cols).
  { rewrite length_row_values; [done|]. simpl.
    by rewrite length_infer_dtypes. }
  assert (Hpre' : Forall (λ pc, is_Some (series_lookup
                     (series_of (mkDF cols (cells :: rest)) cells) pc.2)) pre).
  { eapply Forall_impl; [exact Hpre|]. intros pc Hpc.
    by apply series_lookup_zip. }
  pose proof (property_triples_missing
    (row_subject (mkRule subject_class subject_prefix
                    (pre ++ (prop, col) :: post) id_column) id)
    (series_of (mkDF cols (cells :: rest)) cells) pre post prop col Hpre'
    (series_lookup_zip_None cols _ col Hcol)) as Hmiss.
  destruct (property_triples _ _ _) as [ts o]; simpl in *. subst o.
  split; [done|]. apply elem_of_union_l, elem_of_list_to_set. by left.
Qed.

Lemma add_triples_missing_property_column_witness :
  (add_triples (mkDF ["parentId"; "childId"] [[CInt 100; CInt 200]])
     ex_ns.@"Hierarchy" ex_ns.@"hierarchy"
     ([(ex_ns.@"parentId", "parentId"); (ex_ns.@"childId", "childId")]
      ++ (ex_ns.@"type", "type") :: []) "parentId" ∅).2 =
    Raised (KeyError "type") ∧
  (URIRef ("http://example.org/geonames/hierarchy" ++ "100"), RDF_type,
   ex_ns.@"Hierarchy")
    ∈ (add_triples (mkDF ["parentId"; "childId"] [[CInt 100; CInt 200]])
         ex_ns.@"Hierarchy" ex_ns.@"hierarchy"
         ([(ex_ns.@"parentId", "parentId"); (ex_ns.@"childId", "childId")]
          ++ (ex_ns.@"type", "type") :: []) "parentId" ∅).1.
Proof.
  apply (add_triples_missing_property_column ["parentId"; "childId"]
           [CInt 100; CInt 200] [] ex_ns.@"Hierarchy" ex_ns.@"hierarchy"
           [(ex_ns.@"parentId", "parentId"); (ex_ns.@"childId", "childId")]
           [] ex_ns.@"type" "type" "parentId" (CInt64 100) ∅).
  - apply (bool_decide_unpack _). vm_compute. exact I.
  - reflexivity.
  - apply (bool_decide_unpack _). vm_compute. exact I.
  - apply (bool_decide_unpack _). vm_compute. exact I.
  - reflexivity.
Defined.

(** ** How many triples a file can add *)

Lemma property_triples_length (subject : term) (row : Series)
    (props : list (term * string)) :
  (length (property_triples subject row props).1 ≤ length props)%nat.
Proof.
  induction props as [|[prop col] props IH]; simpl; [done|].
  destruct (series_lookup row col) as [v|]; simpl; [|lia].
  destruct (property_triples subject row props) as [ts o]; simpl in *.
  rewrite length_app. unfold triple in *.
  destruct (pd_notna v); simpl; lia.
Qed.

Lemma rows_triples_length (rule : MappingRule) (rows : list Series) :
  (length (rows_triples rule rows).1
   ≤ length rows * S (length (properties rule)))%nat.
Proof.
  induction rows as [|row rows IH]; simpl; [done|].
  assert (Hrow : (length (row_triples rule row).1
                  ≤ S (length (properties rule)))%nat).
  { unfold row_triples.
    destruct (series_lookup row (id_column rule)) as [id|]; simpl; [|lia].
    pose proof (property_triples_length (row_subject rule id) row
                  (properties rule)) as Hp.
    destruct (property_triples _ _ _) as [ts o]; simpl in *.
    unfold triple in *. lia. }
  destruct (row_triples rule row) as [ts [[]|e]]; simpl in *.
  - destruct (rows_triples rule rows) as [ts' o]; simpl in *.
    rewrite length_app. unfold triple in *. lia.
  - unfold triple in *. lia.
Qed.

Lemma size_list_to_set_le (ts : list triple) :
  (size (list_to_set ts : Graph) ≤ length ts)%nat.
Proof.
  rewrite <- list_to_set_remove_dups.
  rewrite size_list_to_set by apply NoDup_remove_dups.
  induction ts as [|t ts IH]; simpl; [done|].
  unfold triple in *. case_decide; simpl; lia.
Qed.

(** X13: a bound on what one file adds.  Whatever the frame and the
    outcome, processing a file with a rule of [k] properties adds at most
    [k + 1] triples per decoded row to the graph. *)
Theorem added_triples_bound (EX : Namespace) (file_name : string)
    (rule : MappingRule) (raw : RawFrame) (g : Graph) :
  mapping_rule EX file_name = Some rule →
  (size (process_file EX file_name raw g).1
   ≤ size g + length (raw_rows raw) * S (length (properties rule)))%nat.
Proof.
  intros Hrule.
  destruct (process_file_trace EX file_name raw) as (ts & o & Hem & Hts).
  rewrite Hem. cbn [fst].
  assert (Hlen : (length ts
                  ≤ length (raw_rows raw) * S (length (properties rule)))%nat).
  { destruct Hts as [->|(rule' & rows & Hrule' & -> & Hrows)]; [simpl; lia|].
    rewrite Hrule in Hrule'. injection Hrule' as <-.
    pose proof (rows_triples_length rule rows) as Hl.
    etrans; [exact Hl|]. by apply Nat.mul_le_mono_r. }
  unfold triple in *.
  rewrite (comm_L (∪)), size_union_alt.
  pose proof (size_list_to_set_le ts) as Hs.
  assert ((size (list_to_set ts ∖ g : Graph)
           ≤ size (list_to_set ts : Graph))%nat)
    by (apply subseteq_size, subseteq_difference_l; done).
  unfold triple in *. lia.
Qed.

Lemma added_triples_bound_witness :
  (size (process_file ex_ns "hierarchy.txt" hierarchy_two_rows ∅).1
   ≤ size (∅ : Graph)
     + length (raw_rows hierarchy_two_rows)
       * S (length (properties (hierarchy_rule ex_ns))))%nat.
Proof.
  apply (added_triples_bound ex_ns "hierarchy.txt" (hierarchy_rule ex_ns)
           hierarchy_two_rows ∅).
  reflexivity.
Defined.

(** ** [alternateNamesV2.txt] *)

Lemma alternate_row_triples (EX : Namespace) (rule : MappingRule)
    (dts : list dtype) (cells cells' : list cell) :
  mapping_rule EX "alternateNamesV2.txt" = Some rule →
  length dts = 10 → length cells = 10 → length cells' = 10 →
  take 4 cells = take 4 cells' →
  row_triples rule
    (zip ["alternateNameId"; "geonameid"; "isolanguage"; "alternate_name";
          "isPreferredName"; "isShortName"; "isColloquial"; "isHistoric";
          "from"; "to"] (row_values dts cells)) =
  row_triples rule
    (zip ["alternateNameId"; "geonameid"; "isolanguage"; "alternate_name";
          "isPreferredName"; "isShortName"; "isColloquial"; "isHistoric";
          "from"; "to"] (row_values dts cells')).
Proof.
  intros [= <-] Hdts Hlen Hlen' Htake. unfold row_values.
  generalize (common_dtype dts). intros common.
  do 11 (destruct dts as [|? dts]; try discriminate Hdts).
  do 11 (destruct cells as [|? cells]; try discriminate Hlen).
  do 11 (destruct cells' as [|? cells']; try discriminate Hlen').
  injection Htake as -> -> -> ->. reflexivity.
Qed.

Lemma alternate_rows_triples (EX : Namespace) (rule : MappingRule)
    (dts : list dtype) (rows rows' : list (list cell)) :
  mapping_rule EX "alternateNamesV2.txt" = Some rule →
  length dts = 10 →
  Forall (λ cells, length cells = 10) rows →
  Forall (λ cells, length cells = 10) rows' →
  map (take 4) rows = map (take 4) rows' →
  rows_triples rule (iterrows (Build_DataFrame
    ["alternateNameId"; "geonameid"; "isolanguage"; "alternate_name";
     "isPreferredName"; "isShortName"; "isColloquial"; "isHistoric";
     "from"; "to"] rows dts)) =
  rows_triples rule (iterrows (Build_DataFrame
    ["alternateNameId"; "geonameid"; "isolanguage"; "alternate_name";
     "isPreferredName"; "isShortName"; "isColloquial"; "isHistoric";
     "from"; "to"] rows' dts)).
Proof.
  intros Hrule Hdts Hrows. unfold iterrows, series_of.
  cbn [columns data dtypes].
  revert rows'.
  induction Hrows as [|cells rows Hlen _ IH]; intros rows' Hrows' Htake.
  - by destruct rows'.
  - destruct rows' as [|cells' rows']; [done|].
    apply Forall_cons in Hrows' as [Hlen' Hrows'].
    cbn [map] in Htake. injection Htake as Hc Htake.
    cbn [map rows_triples].
    rewrite (alternate_row_triples EX rule dts cells cells'
               Hrule Hdts Hlen Hlen' Hc).
    by rewrite (IH rows' Hrows' Htake).
Qed.

(** X14: the six flag and date columns of [alternateNamesV2.txt]
    ([isPreferredName], [isShortName], [isColloquial], [isHistoric], [from],
    [to]) are read into the frame but never looked up; they bear on the
    result only through the dtypes of their columns.  Two frames of
    ten-column rows that agree, row by row, on the first four cells and
    whose columns have the same dtypes give the same graph and outcome. *)
Theorem alternate_name_flags_ignored (EX : Namespace) (n : nat)
    (rows rows' : list (list cell)) (g : Graph) :
  Forall (λ cells, length cells = 10) rows →
  Forall (λ cells, length cells = 10) rows' →
  map (take 4) rows = map (take 4) rows' →
  infer_dtypes n rows = infer_dtypes n rows' →
  process_file EX "alternateNamesV2.txt" (mkRaw n rows) g =
  process_file EX "alternateNamesV2.txt" (mkRaw n rows') g.
Proof.
  intros Hrows Hrows' Htake Hdtypes.
  destruct (process_file_dispatch EX "alternateNamesV2.txt"
              ["alternateNameId"; "geonameid"; "isolanguage"; "alternate_name";
               "isPreferredName"; "isShortName"; "isColloquial"; "isHistoric";
               "from"; "to"]
              (mkRaw n rows) eq_refl ltac:(done)) as (rule & Hrule & ->).
  destruct (process_file_dispatch EX "alternateNamesV2.txt"
              ["alternateNameId"; "geonameid"; "isolanguage"; "alternate_name";
               "isPreferredName"; "isShortName"; "isColloquial"; "isHistoric";
               "from"; "to"]
              (mkRaw n rows') eq_refl ltac:(done)) as (rule' & Hrule' & ->).
  rewrite Hrule in Hrule'. injection Hrule' as <-.
  unfold bind, set_columns. cbn [ncols raw_rows].
  destruct (n =? _)%nat eqn:Hn; [|done]. unfold ret.
  apply Nat.eqb_eq in Hn. cbn [length] in Hn.
  rewrite !emits_apply_rule, <- Hdtypes.
  rewrite (alternate_rows_triples EX rule (infer_dtypes n rows) rows rows'
             Hrule); [done| |done..].
  rewrite length_infer_dtypes. exact Hn.
Qed.

Lemma alternate_name_flags_ignored_witness :
  process_file ex_ns "alternateNamesV2.txt"
    (mkRaw 10 [[CInt 1; CInt 2988507; CStr "fr"; CStr "Paris"; CInt 1; CNaN;
                CNaN; CNaN; CNaN; CNaN];
               [CInt 2; CInt 2988507; CStr "en"; CStr "Paris"; CNaN; CInt 1;
                CNaN; CNaN; CNaN; CNaN]]) ∅ =
  process_file ex_ns "alternateNamesV2.txt"
    (mkRaw 10 [[CInt 1; CInt 2988507; CStr "fr"; CStr "Paris"; CNaN; CInt 1;
                CNaN; CNaN; CNaN; CNaN];
               [CInt 2; CInt 2988507; CStr "en"; CStr "Paris"; CInt 1; CNaN;
                CNaN; CNaN; CNaN; CNaN]]) ∅.
Proof.
  apply (alternate_name_flags_ignored ex_ns 10
           [[CInt 1; CInt 2988507; CStr "fr"; CStr "Paris"; CInt 1; CNaN;
             CNaN; CNaN; CNaN; CNaN];
            [CInt 2; CInt 2988507; CStr "en"; CStr "Paris"; CNaN; CInt 1;
             CNaN; CNaN; CNaN; CNaN]]
           [[CInt 1; CInt 2988507; CStr "fr"; CStr "Paris"; CNaN; CInt 1;
             CNaN; CNaN; CNaN; CNaN];
            [CInt 2; CInt 2988507; CStr "en"; CStr "Paris"; CInt 1; CNaN;
             CNaN; CNaN; CNaN; CNaN]] ∅).
  - apply (bool_decide_unpack _). vm_compute. exact I.
  - apply (bool_decide_unpack _). vm_compute. exact I.
  - reflexivity.
  - reflexivity.
Defined.

(** ** Renaming the columns of [iso-languagecodes.txt] *)

Lemma replace_space_idemp (s : string) :
  replace_space (replace_space s) = replace_space s.
Proof.
  induction s as [|a s IH]; simpl; [done|]. rewrite IH. f_equal.
  destruct (decide (a = " "%char)) as [->|Hne]; [done|].
  by rewrite decide_False.
Qed.

Lemma replace_space_no_space (s : string) :
  " "%char ∉ list_ascii_of_string s → replace_space s = s.
Proof.
  induction s as [|a s IH]; simpl; [done|].
  intros Hnot. apply not_elem_of_cons in Hnot as [Hne Hnot].
  rewrite decide_False by done. by rewrite IH.
Qed.

(** X15: [process_iso_language_codes] looks columns up by their labels with
    every space turned into an underscore.  On a frame whose labels have no
    space, as in [process_file], the function is the plain emitter with the
    ISO language rule; and a frame labelled with spaces is handled like the
    frame with the underscore labels. *)
Theorem iso_labels_spaces_as_underscores (EX : Namespace)
    (names names' : list string) (rows : list (list cell)) :
  Forall (λ s, " "%char ∉ list_ascii_of_string s) names →
  process_iso_language_codes EX (mkDF names rows) =
    apply_rule (iso_language_rule EX) (mkDF names rows) ∧
  process_iso_language_codes EX (mkDF names' rows) =
    process_iso_language_codes EX (mkDF (map replace_space names') rows).
Proof.
  intros Hnames.
  assert (Hid : map replace_space names = names).
  { rewrite <- (list_fmap_id names) at 2. apply Forall_fmap_ext_1.
    eapply Forall_impl; [exact Hnames|]. intros s Hs.
    by apply replace_space_no_space. }
  assert (Hidem : map replace_space (map replace_space names')
                  = map replace_space names').
  { rewrite <- list_fmap_compose. apply list_fmap_ext. intros _ s _. simpl.
    by rewrite replace_space_idemp. }
  unfold process_iso_language_codes, apply_rule, mkDF.
  cbn [columns data dtypes]. split.
  - by rewrite Hid.
  - by rewrite Hidem, length_map.
Qed.

Lemma iso_labels_spaces_as_underscores_witness :
  process_iso_language_codes ex_ns (mkDF iso_columns [iso_row_aaa]) =
    apply_rule (iso_language_rule ex_ns) (mkDF iso_columns [iso_row_aaa]) ∧
  process_iso_language_codes ex_ns
    (mkDF ["ISO 639 3"; "ISO 639 2"; "ISO 639 1"; "Language Name"]
       [iso_row_aaa]) =
    process_iso_language_codes ex_ns
      (mkDF (map replace_space
               ["ISO 639 3"; "ISO 639 2"; "ISO 639 1"; "Language Name"])
         [iso_row_aaa]).
Proof.
  apply (iso_labels_spaces_as_underscores ex_ns iso_columns
           ["ISO 639 3"; "ISO 639 2"; "ISO 639 1"; "Language Name"]
           [iso_row_aaa]).
  apply (bool_decide_unpack _). vm_compute. exact I.
Defined.
